(** * SonarQube lines-of-code analysis

    A shallow embedding of [sonarqube/sonarqube_line_of_code_analysis.py]:
    the facade over the SonarQube web API client ([SonarQubeFacade]) and the
    report builder ([SonarQubeNumberOfLinesAnalysis]), followed by the
    properties of the reports.

    Python exceptions are modelled by the [result] monad; the third-party
    [SonarQubeClient] is a record of response functions, one per API call the
    script makes. *)

From Stdlib Require Import ZArith String Ascii List Bool Lia.
From Stdlib Require Import DecimalString DecimalPos Sorting.Sorted Sorting.Permutation.
Import ListNotations.

Local Open Scope string_scope.
Local Open Scope list_scope.
Local Open Scope Z_scope.

(** ** Exceptions *)

(** The exceptions that can leave the script.  [ValueError] and [IndexError]
    are raised by the interpreter for the script's own expressions; [Raised]
    stands for any exception thrown inside the client library, identified by
    the name of its class. *)
Inductive exn : Type :=
| ValueError (msg : string)
| IndexError (msg : string)
| Raised (cls : string).

Inductive result (A : Type) : Type :=
| Ok (a : A)
| Err (e : exn).

Arguments Ok {A} a.
Arguments Err {A} e.

Definition bind {A B : Type} (m : result A) (k : A -> result B) : result B :=
  match m with
  | Ok a => k a
  | Err e => Err e
  end.

Notation "x <- m ;; k" := (bind m (fun x => k))
  (at level 61, m at next level, right associativity).

(** A list comprehension whose element expression may raise. *)
Fixpoint comprehension {A B : Type} (f : A -> result B) (l : list A) : result (list B) :=
  match l with
  | [] => Ok []
  | x :: rest =>
      y <- f x ;;
      ys <- comprehension f rest ;;
      Ok (y :: ys)
  end.

(** ** Python values and builtins *)

(** The value of a measure as the script sees it: the JSON string delivered by
    the server, or the integer literal [0] the facade substitutes. *)
Inductive pyval : Type :=
| PyInt (z : Z)
| PyStr (s : string).

Definition newline : string := String (ascii_of_nat 10) EmptyString.

(** [str(n)] for an integer. *)
Definition str_of_int (z : Z) : string := NilZero.string_of_int (Z.to_int z).

(** What an f-string field prints for a value. *)
Definition py_str (v : pyval) : string :=
  match v with
  | PyInt z => str_of_int z
  | PyStr s => s
  end.

(** The blanks [int] skips around a literal: tab, line feed, vertical tab,
    form feed, carriage return and space.  Strings are sequences of bytes
    here; blanks and digits outside ASCII are not modelled. *)
Definition is_space (c : ascii) : bool :=
  let n := nat_of_ascii c in
  ((9 <=? n) && (n <=? 13) || (n =? 32))%nat.

Definition digit_of (c : ascii) : option Z :=
  let n := nat_of_ascii c in
  if ((48 <=? n) && (n <=? 57))%nat then Some (Z.of_nat (n - 48)) else None.

Fixpoint lstrip (s : string) : string :=
  match s with
  | EmptyString => EmptyString
  | String c rest => if is_space c then lstrip rest else s
  end.

Fixpoint string_rev (s : string) : string :=
  match s with
  | EmptyString => EmptyString
  | String c rest => (string_rev rest ++ String c EmptyString)%string
  end.

Definition strip (s : string) : string :=
  string_rev (lstrip (string_rev (lstrip s))).

(** Decimal digits with single underscores between them; [prev] records that
    the previous character was a digit. *)
Fixpoint parse_digits (s : string) (acc : Z) (prev : bool) : option Z :=
  match s with
  | EmptyString => if prev then Some acc else None
  | String c rest =>
      match digit_of c with
      | Some d => parse_digits rest (10 * acc + d) true
      | None =>
          if (Ascii.eqb c "_" && prev)%bool then parse_digits rest acc false
          else None
      end
  end.

Definition int_of_str (s : string) : option Z :=
  match strip s with
  | String "+" rest => parse_digits rest 0 false
  | String "-" rest => option_map Z.opp (parse_digits rest 0 false)
  | body => parse_digits body 0 false
  end.

(** The builtin [int(x)]: the identity on integers, base-10 parsing on
    strings, [ValueError] on a string that is no integer literal. *)
Definition py_int (v : pyval) : result Z :=
  match v with
  | PyInt z => Ok z
  | PyStr s =>
      match int_of_str s with
      | Some z => Ok z
      | None => Err (ValueError "invalid literal for int() with base 10")
      end
  end.

(** The builtin [max] on a list of integers: the first item is the candidate,
    a later item replaces it when strictly greater; an empty list raises. *)
Definition py_max (l : list Z) : result Z :=
  match l with
  | [] => Err (ValueError "max() arg is an empty sequence")
  | x :: rest => Ok (fold_left (fun m y => if m <? y then y else m) rest x)
  end.

(** The slice [l[:n]]: a negative bound counts from the end. *)
Definition slice_to {A : Type} (l : list A) (n : Z) : list A :=
  if 0 <=? n then firstn (Z.to_nat n) l
  else firstn (Z.to_nat (Z.of_nat (length l) + n)) l.

(** [sorted(l, key=key, reverse=True)] with integer keys.  The builtin is
    stable also under [reverse=True], and a stable sort on a total order has
    one possible result, which insertion from the right computes: the new
    item goes before the first item whose key is not greater than its own. *)
Section Sorted.
Context {A : Type} (key : A -> Z).

Fixpoint insert_desc (x : A) (l : list A) : list A :=
  match l with
  | [] => [x]
  | y :: rest =>
      if key x <? key y then y :: insert_desc x rest else x :: l
  end.

Fixpoint sorted_reverse (l : list A) : list A :=
  match l with
  | [] => []
  | x :: rest => insert_desc x (sorted_reverse rest)
  end.
End Sorted.

(** ** Data transfer objects *)

Module Result.
(** [Result]: an element that has a number of lines.  For files the number
    is stored as the server delivered it. *)
Record t : Type := mk {
  number_of_lines : pyval;
  identifier : string
}.
End Result.

Module BranchResult.
(** [BranchResult]: a [Result] for a branch; the report stores
    [int(code_lines)]. *)
Record t : Type := mk {
  number_of_lines : Z;
  identifier : string;
  branch_name : string
}.
End BranchResult.

(** ** The SonarQube client *)

(** JSON objects of the web API, with the fields the script reads. *)
Record project_json : Type := { key : string }.
Record branch_json : Type := { name : string }.
Record measure_json : Type := { metric : string; value : pyval }.
Record component_json : Type := { path : string; measures : list measure_json }.
Record component_response : Type := { component : component_json }.
Record branches_response : Type := { branches : list branch_json }.

(** Keyword arguments of the two measure queries. *)
Record measures_query : Type := {
  mq_component : string;
  mq_branch : option string;
  mq_metricKeys : string
}.

Record tree_query : Type := {
  tq_component : string;
  tq_branch : string;
  tq_metricKeys : string;
  tq_strategy : string;
  tq_metricSort : string;
  tq_asc : string;
  tq_s : string
}.

(** [SonarQubeClient]: what each call answers, or the exception it raises. *)
Record SonarQubeClient : Type := {
  search_projects : result (list project_json);
  search_project_branches : string -> result branches_response;
  get_component_with_specified_measures : measures_query -> result component_response;
  get_component_tree_with_specified_measures : tree_query -> result (list component_json)
}.

(** The process environment, as the list of its bindings. *)
Definition environ : Type := list (string * string).

Fixpoint getenv (env : environ) (var : string) : option string :=
  match env with
  | [] => None
  | (k, v) :: rest => if String.eqb k var then Some v else getenv rest var
  end.

(** ** SonarQubeFacade *)

Module SonarQubeFacade.

Record t : Type := mk {
  sonarqube_url : string;
  _token : option string;
  _client : SonarQubeClient
}.

Section Construction.
(** The constructor of the client library and the environment of the
    process. *)
Variable new_client : string -> option string -> SonarQubeClient.
Variable env : environ.

Definition _get_token_from_environment_variables : option string :=
  getenv env "SONARQUBE_ADMIN_TOKEN".

Definition _create_client (url : string) (token : option string) : SonarQubeClient :=
  new_client url token.

(** [self._token = token if token else ...]: the empty string is falsy. *)
Definition __init__ (url : string) (token : string) : t :=
  let tok :=
    if String.eqb token EmptyString then _get_token_from_environment_variables
    else Some token in
  mk url tok (_create_client url tok).
End Construction.

Definition get_project_keys (self : t) : result (list string) :=
  return_object <- search_projects (_client self) ;;
  Ok (map key return_object).

Definition first_value_or_zero (ms : list measure_json) : pyval :=
  match ms with
  | m :: _ => value m
  | [] => PyInt 0
  end.

Definition get_project_size (self : t) (project_key : string) : result pyval :=
  resp <- get_component_with_specified_measures (_client self)
            {| mq_component := project_key; mq_branch := None;
               mq_metricKeys := "ncloc" |} ;;
  Ok (first_value_or_zero (measures (component resp))).

Definition get_branches (self : t) (project_key : string) : result (list string) :=
  resp <- search_project_branches (_client self) project_key ;;
  Ok (map name (branches resp)).

Definition get_branch_size (self : t) (project_key branch_name : string) : result pyval :=
  resp <- get_component_with_specified_measures (_client self)
            {| mq_component := project_key; mq_branch := Some branch_name;
               mq_metricKeys := "ncloc" |} ;;
  Ok (first_value_or_zero (measures (component resp))).

(** [component["measures"][0]["value"]] raises on an empty list. *)
Definition file_result (c : component_json) : result Result.t :=
  match measures c with
  | m :: _ => Ok (Result.mk (value m) (path c))
  | [] => Err (IndexError "list index out of range")
  end.

Definition get_file_sizes (self : t) (project_key branch_name : string)
  : result (list Result.t) :=
  component_tree <- get_component_tree_with_specified_measures (_client self)
                      {| tq_component := project_key; tq_branch := branch_name;
                         tq_metricKeys := "ncloc"; tq_strategy := "leaves";
                         tq_metricSort := "ncloc"; tq_asc := "false";
                         tq_s := "metric" |} ;;
  comprehension file_result component_tree.

End SonarQubeFacade.

(** ** SonarQubeNumberOfLinesAnalysis *)

Module SonarQubeNumberOfLinesAnalysis.

Definition REPORT_FILE_PATH : string := "branch_size_report.csv".

Record t : Type := mk { client : SonarQubeFacade.t }.

Definition branch_report_header : string :=
  ("Project, Branch, Number of lines of code" ++ newline)%string.

Definition top_files_header : string :=
  ("Project, Branch, Path, Number of lines of code" ++ newline)%string.

(** The f-string of one line of the branch report. *)
Definition branch_row (result : BranchResult.t) : string :=
  (BranchResult.identifier result ++ ", " ++ BranchResult.branch_name result
     ++ ", " ++ str_of_int (BranchResult.number_of_lines result) ++ newline)%string.

(** The f-string of one line of the top files report. *)
Definition file_row (project_key branch_name : string) (file_size : Result.t) : string :=
  (project_key ++ ", " ++ branch_name ++ ", " ++ Result.identifier file_size
     ++ ", " ++ py_str (Result.number_of_lines file_size) ++ newline)%string.

(** The inner loop of [get_branch_size_report]: one [append] per branch. *)
Fixpoint append_branches (self : t) (project : string) (branches : list string)
    (branch_results : list BranchResult.t) : result (list BranchResult.t) :=
  match branches with
  | [] => Ok branch_results
  | branch :: rest =>
      code_lines <- SonarQubeFacade.get_branch_size (client self) project branch ;;
      n <- py_int code_lines ;;
      append_branches self project rest
        (branch_results ++ [BranchResult.mk n project branch])
  end.

(** The outer loop of [get_branch_size_report]. *)
Fixpoint append_projects (self : t) (project_keys : list string)
    (branch_results : list BranchResult.t) : result (list BranchResult.t) :=
  match project_keys with
  | [] => Ok branch_results
  | project :: rest =>
      branches <- SonarQubeFacade.get_branches (client self) project ;;
      branch_results' <- append_branches self project branches branch_results ;;
      append_projects self rest branch_results'
  end.

(** [report_string += row] for every item, in order. *)
Definition write_rows {A : Type} (row : A -> string) (items : list A) (header : string)
  : string :=
  fold_left (fun report_string item => (report_string ++ row item)%string) items header.

Definition get_branch_size_report (self : t) : result string :=
  project_keys <- SonarQubeFacade.get_project_keys (client self) ;;
  branch_results <- append_projects self project_keys [] ;;
  Ok (write_rows branch_row
        (sorted_reverse BranchResult.number_of_lines branch_results)
        branch_report_header).

(** The loop of [get_total_size]. *)
Fixpoint add_projects (self : t) (project_keys : list string) (total : Z) : result Z :=
  match project_keys with
  | [] => Ok total
  | project :: rest =>
      branches <- SonarQubeFacade.get_branches (client self) project ;;
      number_of_lines <-
        comprehension
          (fun branch =>
             code_lines <- SonarQubeFacade.get_branch_size (client self) project branch ;;
             py_int code_lines)
          branches ;;
      largest <- py_max number_of_lines ;;
      add_projects self rest (total + largest)
  end.

Definition get_total_size (self : t) : result Z :=
  project_keys <- SonarQubeFacade.get_project_keys (client self) ;;
  add_projects self project_keys 0.

Definition get_top_x_files_report (self : t) (project_key branch_name : string) (top_x : Z)
  : result string :=
  file_sizes <- SonarQubeFacade.get_file_sizes (client self) project_key branch_name ;;
  Ok (write_rows (file_row project_key branch_name) (slice_to file_sizes top_x)
        top_files_header).

End SonarQubeNumberOfLinesAnalysis.

(** [_create_analysis] of the script. *)
Definition _create_analysis (new_client : string -> option string -> SonarQubeClient)
    (env : environ) (sonarqube_url sonarqube_token : string)
  : SonarQubeNumberOfLinesAnalysis.t :=
  SonarQubeNumberOfLinesAnalysis.mk
    (SonarQubeFacade.__init__ new_client env sonarqube_url sonarqube_token).

(** ** A server with known content *)

(** The content of a SonarQube instance as the script can observe it: the
    projects in listing order, each with its branches in listing order, each
    branch with the measures the server reports for it. *)
Definition branch_content : Type := (string * list measure_json)%type.
Definition project_content : Type := (string * list branch_content)%type.
Definition instance_content : Type := list project_content.

Fixpoint lookup {V : Type} (k : string) (l : list (string * V)) : option V :=
  match l with
  | [] => None
  | (k', v) :: rest => if String.eqb k' k then Some v else lookup k rest
  end.

(** The files of one branch, as the component tree query lists them. *)
Definition tree_content : Type := list (string * list (string * list component_json)).

(** A client that answers from the given content whatever the credentials,
    and raises the library's [NotFoundError] for what is not there. *)
Definition serving (content : instance_content) (trees : tree_content) : SonarQubeClient :=
  {| search_projects := Ok (map (fun p => {| key := fst p |}) content);
     search_project_branches := fun project =>
       match lookup project content with
       | Some bs => Ok {| branches := map (fun b => {| name := fst b |}) bs |}
       | None => Err (Raised "NotFoundError")
       end;
     get_component_with_specified_measures := fun q =>
       match lookup (mq_component q) content with
       | Some bs =>
           match mq_branch q with
           | Some b =>
               match lookup b bs with
               | Some ms => Ok {| component := {| path := EmptyString; measures := ms |} |}
               | None => Err (Raised "NotFoundError")
               end
           | None => Err (Raised "NotFoundError")
           end
       | None => Err (Raised "NotFoundError")
       end;
     get_component_tree_with_specified_measures := fun q =>
       match lookup (tq_component q) trees with
       | Some bs =>
           match lookup (tq_branch q) bs with
           | Some files => Ok files
           | None => Err (Raised "NotFoundError")
           end
       | None => Err (Raised "NotFoundError")
       end |}.

Definition ncloc (v : string) : measure_json := {| metric := "ncloc"; value := PyStr v |}.

Definition facade_of (c : SonarQubeClient) : SonarQubeFacade.t :=
  SonarQubeFacade.mk "https://sonarqube.example" (Some "token") c.

Definition analysis_of (c : SonarQubeClient) : SonarQubeNumberOfLinesAnalysis.t :=
  SonarQubeNumberOfLinesAnalysis.mk (facade_of c).

(** The scenario with projects A (main 100, feature 150) and B (main 50). *)
Definition scenario : instance_content :=
  [ ("A", [("main", [ncloc "100"]); ("feature", [ncloc "150"])]);
    ("B", [("main", [ncloc "50"])]) ].

Definition scenario_trees : tree_content :=
  [ ("A", [("main",
            [ {| path := "x.py"; measures := [ncloc "80"] |};
              {| path := "y.py"; measures := [ncloc "60"] |};
              {| path := "z.py"; measures := [ncloc "10"] |} ])]) ].

(** ** What the gateway returns *)

(** The (project, branch, LOC) triples of an instance: the projects in
    listing order, each with its branches in listing order and the LOC of
    each branch. *)
Definition loc_table : Type := list (string * list (string * Z)).

(** The gateway returns the table: the project listing gives its projects,
    the branch listing of each project gives its branches, and the size of
    each branch is a value that [int] reads as the LOC of the table. *)
Definition branch_exposed (gateway : SonarQubeFacade.t) (project : string) (b : string * Z)
  : Prop :=
  exists v, SonarQubeFacade.get_branch_size gateway project (fst b) = Ok v
            /\ py_int v = Ok (snd b).

Definition project_exposed (gateway : SonarQubeFacade.t) (p : string * list (string * Z))
  : Prop :=
  SonarQubeFacade.get_branches gateway (fst p) = Ok (map fst (snd p))
  /\ Forall (branch_exposed gateway (fst p)) (snd p).

Definition exposes (gateway : SonarQubeFacade.t) (table : loc_table) : Prop :=
  SonarQubeFacade.get_project_keys gateway = Ok (map fst table)
  /\ Forall (project_exposed gateway) table.

(** The branch results in discovery order: project by project, branch by
    branch. *)
Definition discovered (table : loc_table) : list BranchResult.t :=
  flat_map (fun p => map (fun b => BranchResult.mk (snd b) (fst p) (fst b)) (snd p)) table.

(** The largest of a non-empty list of LOC counts. *)
Definition largest (locs : list Z) : Z :=
  match locs with
  | [] => 0
  | x :: rest => fold_right Z.max x rest
  end.

(** The total size as the specification words it: the sum, over the
    projects, of the largest LOC among the branches of the project. *)
Definition sum_of_maxima (table : loc_table) : Z :=
  fold_right Z.add 0 (map (fun p => largest (map snd (snd p))) table).

(** The sum of all branches, which the total is not. *)
Definition sum_of_branches (table : loc_table) : Z :=
  fold_right Z.add 0 (map BranchResult.number_of_lines (discovered table)).

(** The rows of a report, one after the other. *)
Definition lines_of {A : Type} (row : A -> string) (items : list A) : string :=
  String.concat EmptyString (map row items).

(** Descending order of the keys. *)
Section Order.
Context {A : Type} (key : A -> Z).

Definition key_ge (a b : A) : Prop := key b <= key a.

End Order.

(** The (project, branch) pairs of a table. *)
Definition pairs (table : loc_table) : list (string * string) :=
  flat_map (fun p => map (fun b => (fst p, fst b)) (snd p)) table.

(** Two gateways give identical responses to the calls of the branch report:
    the same project listing, the same branch listing for every listed
    project, and the same size for every listed branch; an exception counts
    as a response. *)
Definition same_responses (g1 g2 : SonarQubeFacade.t) : Prop :=
  SonarQubeFacade.get_project_keys g1 = SonarQubeFacade.get_project_keys g2
  /\ forall keys, SonarQubeFacade.get_project_keys g1 = Ok keys ->
     forall project, In project keys ->
       SonarQubeFacade.get_branches g1 project = SonarQubeFacade.get_branches g2 project
       /\ forall bs, SonarQubeFacade.get_branches g1 project = Ok bs ->
          forall branch, In branch bs ->
            SonarQubeFacade.get_branch_size g1 project branch
            = SonarQubeFacade.get_branch_size g2 project branch.

(** A file entry is at least as large as another: both counts read as
    integers and the first is not the smaller. *)
Definition loc_ge (r1 r2 : Result.t) : Prop :=
  exists a b, py_int (Result.number_of_lines r1) = Ok a
              /\ py_int (Result.number_of_lines r2) = Ok b
              /\ b <= a.

(** The entry [get_file_sizes] makes of a component that has a measure. *)
Definition entry_of (c : component_json) : Result.t :=
  Result.mk (SonarQubeFacade.first_value_or_zero (measures c)) (path c).

(** The component tree query of [get_file_sizes]. *)
Definition leaves_query (project_key branch_name : string) : tree_query :=
  {| tq_component := project_key; tq_branch := branch_name;
     tq_metricKeys := "ncloc"; tq_strategy := "leaves";
     tq_metricSort := "ncloc"; tq_asc := "false"; tq_s := "metric" |}.

(** The branch size query of [get_branch_size]. *)
Definition branch_query (project_key branch_name : string) : measures_query :=
  {| mq_component := project_key; mq_branch := Some branch_name;
     mq_metricKeys := "ncloc" |}.

(** *** Example instances *)

Definition scenario_table : loc_table :=
  [ ("A", [("main", 100); ("feature", 150)]); ("B", [("main", 50)]) ].

(** Several branches of one size. *)
Definition tied : instance_content :=
  [ ("A", [("main", [ncloc "100"]); ("dev", [ncloc "100"])]);
    ("B", [("main", [ncloc "200"]); ("old", [ncloc "100"])]) ].

Definition tied_table : loc_table :=
  [ ("A", [("main", 100); ("dev", 100)]); ("B", [("main", 200); ("old", 100)]) ].

(** A project without branches after one with a branch. *)
Definition branchless : instance_content :=
  [ ("A", [("main", [ncloc "100"])]); ("C", []) ].

Definition branchless_table : loc_table :=
  [ ("A", [("main", 100)]); ("C", []) ].

(** A branch for which the server reports no measure. *)
Definition unmeasured : instance_content :=
  [ ("A", [("main", [ncloc "100"]); ("empty", [])]) ].

Definition unmeasured_table : loc_table :=
  [ ("A", [("main", 100); ("empty", 0)]) ].

(** A server that lists the files in another order than the one asked for. *)
Definition unsorted_trees : tree_content :=
  [ ("A", [("main",
            [ {| path := "a.py"; measures := [ncloc "10"] |};
              {| path := "b.py"; measures := [ncloc "80"] |} ])]) ].

(** The client constructor for a server that allows anonymous access: the
    answers do not depend on the token. *)
Definition anonymous_access (url : string) (token : option string) : SonarQubeClient :=
  serving scenario scenario_trees.

(** ** Console, files and the command line *)

(** What the script can change outside itself: the text written to standard
    output and the content of the files, by path. *)
Record world : Type := {
  stdout : string;
  files : string -> option string
}.

(** A statement that may print, write a file or raise.  The world it returns
    is the world at the point where it ended or raised. *)
Definition io (A : Type) : Type := world -> world * result A.

Definition io_bind {A B : Type} (m : io A) (k : A -> io B) : io B :=
  fun w =>
    match m w with
    | (w', Ok a) => k a w'
    | (w', Err e) => (w', Err e)
    end.

Notation "x <~ m ;; k" := (io_bind m (fun x => k))
  (at level 61, m at next level, right associativity).

(** An expression of the script, which changes nothing outside. *)
Definition eval {A : Type} (r : result A) : io A := fun w => (w, r).

Definition skip : io unit := fun w => (w, Ok tt).

(** [print(text)]: the text and a newline go to standard output. *)
Definition print (text : string) : io unit :=
  fun w => ({| stdout := (stdout w ++ text ++ newline)%string; files := files w |}, Ok tt).

(** [with open(path, "w") as file: file.write(text)]: the file holds the
    text afterwards, whatever it held before. *)
Definition write_file (path text : string) : io unit :=
  fun w =>
    ({| stdout := stdout w;
        files := fun p => if String.eqb p path then Some text else files w p |},
     Ok tt).

(** [s.split(sep)] for a separator of one character: every occurrence
    separates, empty parts are kept. *)
Fixpoint split (sep : ascii) (s : string) : list string :=
  match s with
  | EmptyString => [EmptyString]
  | String c rest =>
      if Ascii.eqb c sep then EmptyString :: split sep rest
      else match split sep rest with
           | part :: parts => String c part :: parts
           | [] => [String c EmptyString]
           end
  end.

(** [a, b, c = parts]: the list must have three items. *)
Definition unpack3 (parts : list string) : result (string * string * string) :=
  match parts with
  | [a; b; c] => Ok (a, b, c)
  | _ =>
      if (length parts <? 3)%nat
      then Err (ValueError "not enough values to unpack (expected 3)")
      else Err (ValueError "too many values to unpack (expected 3)")
  end.

(** The printing methods of [SonarQubeNumberOfLinesAnalysis]. *)
Definition print_in_console_branch_size_report (self : SonarQubeNumberOfLinesAnalysis.t)
  : io unit :=
  report <~ eval (SonarQubeNumberOfLinesAnalysis.get_branch_size_report self) ;;
  print report.

Definition print_in_file_branch_size_report (self : SonarQubeNumberOfLinesAnalysis.t)
  : io unit :=
  report <~ eval (SonarQubeNumberOfLinesAnalysis.get_branch_size_report self) ;;
  _ <~ write_file SonarQubeNumberOfLinesAnalysis.REPORT_FILE_PATH report ;;
  print ("Report written to file " ++ SonarQubeNumberOfLinesAnalysis.REPORT_FILE_PATH).

Definition print_to_console_top_x_files (self : SonarQubeNumberOfLinesAnalysis.t)
    (project_key branch_name : string) (top_x : Z) : io unit :=
  report <~ eval (SonarQubeNumberOfLinesAnalysis.get_top_x_files_report self
                    project_key branch_name top_x) ;;
  print report.

(** The functions of the script itself. *)
Module Script.

(** The parsed command line: the attributes of [args]. *)
Record Namespace : Type := {
  branch_size : bool;
  total_size : bool;
  top_x_files : option string;
  sonarqube_admin_token : string;
  sonarqube_url : string
}.

Definition branch_size_analysis (analysis : SonarQubeNumberOfLinesAnalysis.t) : io unit :=
  print_in_file_branch_size_report analysis.

Definition get_total_size (analysis : SonarQubeNumberOfLinesAnalysis.t) : io unit :=
  total <~ eval (SonarQubeNumberOfLinesAnalysis.get_total_size analysis) ;;
  print ("Total number of lines: " ++ str_of_int total).

Definition get_top_x (project_key branch_name : string) (top_x : Z)
    (analysis : SonarQubeNumberOfLinesAnalysis.t) : io unit :=
  print_to_console_top_x_files analysis project_key branch_name top_x.

(** A string is true unless it is empty; [None] is false. *)
Definition truthy (s : option string) : bool :=
  match s with
  | Some text => negb (String.eqb text EmptyString)
  | None => false
  end.

(** The last branch of [main]: split the argument, unpack three parts,
    convert the third. *)
Definition top_x_files_stage (spec : string) (analysis : SonarQubeNumberOfLinesAnalysis.t)
  : io unit :=
  parts <~ eval (unpack3 (split "," spec)) ;;
  let '(project_key, branch_name, top_x) := parts in
  n <~ eval (py_int (PyStr top_x)) ;;
  get_top_x project_key branch_name n analysis.

(** [main] after [parser.parse_args()]. *)
Definition main (new_client : string -> option string -> SonarQubeClient) (env : environ)
    (args : Namespace) : io unit :=
  let analysis :=
    _create_analysis new_client env (sonarqube_url args) (sonarqube_admin_token args) in
  _ <~ (if branch_size args then branch_size_analysis analysis else skip) ;;
  _ <~ (if total_size args then get_total_size analysis else skip) ;;
  if truthy (top_x_files args)
  then match top_x_files args with
       | Some spec => top_x_files_stage spec analysis
       | None => skip
       end
  else skip.

End Script.

(** A world with an older report file and some output already printed. *)
Definition old_world : world :=
  {| stdout := "started" ++ newline;
     files := fun p =>
       if String.eqb p "branch_size_report.csv" then Some "old report"
       else if String.eqb p "notes.txt" then Some "keep"
       else None |}.

(** [sep.join(parts)] for a separator of one character. *)
Fixpoint join (sep : ascii) (parts : list string) : string :=
  match parts with
  | [] => EmptyString
  | [part] => part
  | part :: rest => (part ++ String sep (join sep rest))%string
  end.

(** The character does not occur in the string. *)
Fixpoint free_of (sep : ascii) (s : string) : bool :=
  match s with
  | EmptyString => true
  | String c rest => negb (Ascii.eqb c sep) && free_of sep rest
  end.

(** The number of occurrences of a character. *)
Fixpoint occurrences (ch : ascii) (s : string) : nat :=
  match s with
  | EmptyString => 0%nat
  | String c rest => ((if Ascii.eqb c ch then 1 else 0) + occurrences ch rest)%nat
  end.

(** Reading a decimal numeral from the most significant digit. *)
Fixpoint horner (d : Decimal.uint) (acc : Z) : Z :=
  match d with
  | Decimal.Nil => acc
  | Decimal.D0 l => horner l (10 * acc)
  | Decimal.D1 l => horner l (10 * acc + 1)
  | Decimal.D2 l => horner l (10 * acc + 2)
  | Decimal.D3 l => horner l (10 * acc + 3)
  | Decimal.D4 l => horner l (10 * acc + 4)
  | Decimal.D5 l => horner l (10 * acc + 5)
  | Decimal.D6 l => horner l (10 * acc + 6)
  | Decimal.D7 l => horner l (10 * acc + 7)
  | Decimal.D8 l => horner l (10 * acc + 8)
  | Decimal.D9 l => horner l (10 * acc + 9)
  end.

(** Every character of the string passes the test. *)
Fixpoint all_chars (test : ascii -> bool) (s : string) : bool :=
  match s with
  | EmptyString => true
  | String c rest => test c && all_chars test rest
  end.

Definition not_space (c : ascii) : bool := negb (is_space c).

(** A statement only adds to standard output and leaves every file but the
    report file as it was. *)
Definition spares_other_files {A : Type} (m : io A) : Prop :=
  forall w,
    (forall p, p <> SonarQubeNumberOfLinesAnalysis.REPORT_FILE_PATH ->
               files (fst (m w)) p = files w p)
    /\ exists out, stdout (fst (m w)) = (stdout w ++ out)%string.

(** A statement only adds to standard output and writes no file. *)
Definition writes_no_file {A : Type} (m : io A) : Prop :=
  forall w,
    (forall p, files (fst (m w)) p = files w p)
    /\ exists out, stdout (fst (m w)) = (stdout w ++ out)%string.

(** The size of one branch as the report loop reads it. *)
Definition branch_loc (gateway : SonarQubeFacade.t) (project branch : string) : result Z :=
  code_lines <- SonarQubeFacade.get_branch_size gateway project branch ;;
  py_int code_lines.

(** A tree in which one file has no measure. *)
Definition partly_measured_trees : tree_content :=
  [ ("A", [("main",
            [ {| path := "x.py"; measures := [ncloc "80"] |};
              {| path := "y.py"; measures := [ncloc "60"] |};
              {| path := "empty.py"; measures := [] |} ])]) ].

(** A server on which the branch listing of project B is refused. *)
Definition refusing_branches : SonarQubeClient :=
  let c := serving scenario scenario_trees in
  {| search_projects := search_projects c;
     search_project_branches := fun project =>
       if String.eqb project "B" then Err (Raised "AuthError")
       else search_project_branches c project;
     get_component_with_specified_measures := get_component_with_specified_measures c;
     get_component_tree_with_specified_measures :=
       get_component_tree_with_specified_measures c |}.

(** A branch whose size is no integer literal. *)
Definition garbled : instance_content :=
  [ ("A", [("main", [ncloc "100"]); ("dev", [ncloc "12.5"])]);
    ("B", [("main", [ncloc "50"])]) ].

(** Example command lines. *)
Definition example_args (branch_size total_size : bool) (top_x_files : option string)
  : Script.Namespace :=
  {| Script.branch_size := branch_size;
     Script.total_size := total_size;
     Script.top_x_files := top_x_files;
     Script.sonarqube_admin_token := EmptyString;
     Script.sonarqube_url := "https://sonarqube.example" |}.

(** The client constructor for a server with the given content. *)
Definition server_of (content : instance_content) (trees : tree_content)
    (url : string) (token : option string) : SonarQubeClient :=
  serving content trees.

(** Two tables hold the same projects with the same branches, listed in any
    order. *)
Definition same_branches (p q : string * list (string * Z)) : Prop :=
  fst p = fst q /\ Permutation (snd p) (snd q).

Definition same_projects (t1 t2 : loc_table) : Prop :=
  exists t, Permutation t1 t /\ Forall2 same_branches t t2.

(** The scenario as another server could list it. *)
Definition reordered : instance_content :=
  [ ("B", [("main", [ncloc "50"])]);
    ("A", [("feature", [ncloc "150"]); ("main", [ncloc "100"])]) ].

Definition reordered_table : loc_table :=
  [ ("B", [("main", 50)]); ("A", [("feature", 150); ("main", 100)]) ].

(** * Properties *)

(** ** Strings and report writing *)

Lemma append_assoc (a b c : string) : ((a ++ b) ++ c = a ++ (b ++ c))%string.
Proof.
  induction a as [|ch a IH]; simpl; [reflexivity | now rewrite IH].
Qed.

Lemma append_empty_r (a : string) : (a ++ EmptyString = a)%string.
Proof.
  induction a as [|ch a IH]; simpl; [reflexivity | now rewrite IH].
Qed.

Lemma concat_empty_cons (s : string) (l : list string) :
  String.concat EmptyString (s :: l) = (s ++ String.concat EmptyString l)%string.
Proof.
  destruct l as [|t l]; simpl; [now rewrite append_empty_r | reflexivity].
Qed.

Lemma lines_of_cons {A : Type} (row : A -> string) (x : A) (items : list A) :
  lines_of row (x :: items) = (row x ++ lines_of row items)%string.
Proof.
  unfold lines_of. rewrite map_cons. apply concat_empty_cons.
Qed.

Lemma lines_of_app {A : Type} (row : A -> string) (l1 l2 : list A) :
  lines_of row (l1 ++ l2) = (lines_of row l1 ++ lines_of row l2)%string.
Proof.
  induction l1 as [|x l1 IH].
  - reflexivity.
  - rewrite <- app_comm_cons, !lines_of_cons, IH, append_assoc. reflexivity.
Qed.

Lemma write_rows_lines {A : Type} (row : A -> string) (items : list A) (header : string) :
  SonarQubeNumberOfLinesAnalysis.write_rows row items header
  = (header ++ lines_of row items)%string.
Proof.
  unfold SonarQubeNumberOfLinesAnalysis.write_rows.
  revert header; induction items as [|x items IH]; intros header.
  - simpl. now rewrite append_empty_r.
  - simpl fold_left. rewrite IH, lines_of_cons, append_assoc. reflexivity.
Qed.

(** ** The error monad *)

Lemma comprehension_ok {A B : Type} (f : A -> result B) (l : list A) (g : A -> B) :
  Forall (fun x => f x = Ok (g x)) l -> comprehension f l = Ok (map g l).
Proof.
  induction 1 as [|x l Hx _ IH]; simpl; [reflexivity |].
  rewrite Hx; simpl. rewrite IH; reflexivity.
Qed.

(** ** The builtins *)

Lemma fold_max_spec (rest : list Z) (x : Z) :
  let m := fold_left (fun m y => if m <? y then y else m) rest x in
  In m (x :: rest) /\ Forall (fun y => y <= m) (x :: rest).
Proof.
  revert x; induction rest as [|y rest IH]; intros x; cbn zeta.
  - simpl. split; [now left | constructor; [lia | constructor]].
  - simpl fold_left. specialize (IH (if x <? y then y else x)). cbn zeta in IH.
    destruct IH as [Hin Hall]. inversion Hall as [|? ? Hhd Htl]; subst. split.
    + destruct Hin as [Heq | Hin].
      * rewrite <- Heq. destruct (Z.ltb_spec x y); [right; now left | now left].
      * right; now right.
    + destruct (Z.ltb_spec x y); repeat constructor; try assumption; lia.
Qed.

(** [max] returns the largest element of a non-empty list. *)
Lemma py_max_spec (l : list Z) (m : Z) :
  py_max l = Ok m -> In m l /\ Forall (fun y => y <= m) l.
Proof.
  destruct l as [|x rest]; simpl; [discriminate |].
  intros H; injection H as <-. apply (fold_max_spec rest x).
Qed.

Lemma fold_max_Zmax (rest : list Z) (x : Z) :
  fold_left (fun m y => if m <? y then y else m) rest x = fold_right Z.max x rest.
Proof.
  revert x; induction rest as [|y rest IH]; intros x; simpl; [reflexivity |].
  rewrite IH. destruct (Z.ltb_spec x y).
  - clear IH. induction rest as [|z rest IH]; simpl; lia.
  - clear IH. induction rest as [|z rest IH]; simpl; lia.
Qed.

Section SortedFacts.
Context {A : Type} (key : A -> Z).

Lemma insert_desc_perm (x : A) (l : list A) : Permutation (x :: l) (insert_desc key x l).
Proof.
  induction l as [|y l IH]; simpl; [reflexivity |].
  destruct (key x <? key y); [| reflexivity].
  rewrite perm_swap. now constructor.
Qed.

Lemma sorted_reverse_perm (l : list A) : Permutation l (sorted_reverse key l).
Proof.
  induction l as [|x l IH]; simpl; [constructor |].
  rewrite <- insert_desc_perm. now constructor.
Qed.

Lemma insert_desc_sorted (x : A) (l : list A) :
  StronglySorted (key_ge key) l -> StronglySorted (key_ge key) (insert_desc key x l).
Proof.
  induction 1 as [|y l Hs IH Hy]; simpl.
  - repeat constructor.
  - destruct (Z.ltb_spec (key x) (key y)) as [Hlt | Hge].
    + constructor; [assumption |].
      rewrite <- insert_desc_perm. constructor; [unfold key_ge; lia | assumption].
    + constructor; [now constructor |].
      constructor; [exact Hge |].
      eapply Forall_impl; [| exact Hy]. unfold key_ge; intros; lia.
Qed.

Lemma sorted_reverse_sorted (l : list A) : StronglySorted (key_ge key) (sorted_reverse key l).
Proof.
  induction l as [|x l IH]; simpl; [constructor | now apply insert_desc_sorted].
Qed.

(** Items with one key keep their relative order. *)
Lemma insert_desc_stable (n : Z) (x : A) (l : list A) :
  StronglySorted (key_ge key) l ->
  filter (fun r => key r =? n) (insert_desc key x l)
  = filter (fun r => key r =? n) (x :: l).
Proof.
  induction 1 as [|y l Hs IH Hy]; [reflexivity |].
  simpl insert_desc. destruct (Z.ltb_spec (key x) (key y)) as [Hlt | Hge]; [| reflexivity].
  simpl filter in *. rewrite IH.
  destruct (Z.eqb_spec (key x) n), (Z.eqb_spec (key y) n); try reflexivity; lia.
Qed.

Lemma sorted_reverse_stable (n : Z) (l : list A) :
  filter (fun r => key r =? n) (sorted_reverse key l) = filter (fun r => key r =? n) l.
Proof.
  induction l as [|x l IH]; [reflexivity |].
  simpl sorted_reverse. rewrite insert_desc_stable by apply sorted_reverse_sorted.
  simpl. now rewrite IH.
Qed.
End SortedFacts.

Lemma largest_is_maximum (locs : list Z) :
  locs <> [] -> In (largest locs) locs /\ Forall (fun y => y <= largest locs) locs.
Proof.
  destruct locs as [|x rest]; [congruence | intros _].
  unfold largest. rewrite <- fold_max_Zmax. apply (fold_max_spec rest x).
Qed.

Lemma py_max_largest (locs : list Z) : locs <> [] -> py_max locs = Ok (largest locs).
Proof.
  destruct locs as [|x rest]; [congruence | intros _].
  simpl. now rewrite fold_max_Zmax.
Qed.

Section Loops.
Import SonarQubeNumberOfLinesAnalysis.
Variable self : SonarQubeNumberOfLinesAnalysis.t.

Lemma branch_sizes_ok (project : string) (bs : list (string * Z)) :
  Forall (branch_exposed (client self) project) bs ->
  comprehension
    (fun branch =>
       code_lines <- SonarQubeFacade.get_branch_size (client self) project branch ;;
       py_int code_lines)
    (map fst bs)
  = Ok (map snd bs).
Proof.
  induction 1 as [|b bs [v [Hv Hn]] _ IH]; simpl; [reflexivity |].
  rewrite Hv; simpl. rewrite Hn; simpl. rewrite IH. reflexivity.
Qed.

Lemma add_projects_ok (table : loc_table) (total : Z) :
  Forall (project_exposed (client self)) table ->
  Forall (fun p => snd p <> []) table ->
  add_projects self (map fst table) total = Ok (total + sum_of_maxima table).
Proof.
  intros Hex; revert total.
  induction Hex as [|p table [Hbr Hbs] _ IH]; intros total Hne.
  - simpl. f_equal. unfold sum_of_maxima; simpl. lia.
  - inversion Hne as [|? ? Hp Hrest]; subst. simpl.
    rewrite Hbr; simpl. rewrite (branch_sizes_ok _ _ Hbs); simpl.
    rewrite py_max_largest; simpl.
    + rewrite (IH _ Hrest). f_equal. unfold sum_of_maxima; simpl. lia.
    + destruct (snd p); [congruence | discriminate].
Qed.

(** A project without branches stops the loop with the error of [max]. *)
Lemma add_projects_empty (table : loc_table) (total : Z) :
  Forall (project_exposed (client self)) table ->
  Exists (fun p => snd p = []) table ->
  add_projects self (map fst table) total
  = Err (ValueError "max() arg is an empty sequence").
Proof.
  intros Hex; revert total.
  induction Hex as [|p table [Hbr Hbs] _ IH]; intros total Hemp.
  - inversion Hemp.
  - simpl. rewrite Hbr; simpl. rewrite (branch_sizes_ok _ _ Hbs); simpl.
    destruct (snd p) as [|b bs] eqn:Hp.
    + reflexivity.
    + simpl. inversion Hemp as [? ? Hhd | ? ? Htl]; subst; [congruence |].
      now apply IH.
Qed.

(** Whatever the other answers are, the loop does not get past a project
    whose branch listing is empty. *)
Lemma add_projects_empty_fails (keys : list string) (project : string) (total : Z) :
  In project keys ->
  SonarQubeFacade.get_branches (client self) project = Ok [] ->
  exists e, add_projects self keys total = Err e.
Proof.
  revert total; induction keys as [|k keys IH]; intros total Hin Hbr; [inversion Hin |].
  simpl.
  destruct (SonarQubeFacade.get_branches (client self) k) as [bs|e] eqn:Hk;
    simpl; [| eauto].
  destruct (comprehension _ bs) as [ns|e] eqn:Hns; simpl; [| eauto].
  destruct (py_max ns) as [m|e] eqn:Hm; simpl; [| eauto].
  destruct Hin as [-> | Hin]; [| now apply IH].
  rewrite Hbr in Hk; injection Hk as <-. simpl in Hns. injection Hns as <-.
  discriminate.
Qed.

Lemma append_branches_ok (project : string) (bs : list (string * Z))
    (acc : list BranchResult.t) :
  Forall (branch_exposed (client self) project) bs ->
  append_branches self project (map fst bs) acc
  = Ok (acc ++ map (fun b => BranchResult.mk (snd b) project (fst b)) bs).
Proof.
  intros H; revert acc. induction H as [|b bs [v [Hv Hn]] _ IH]; intros acc; simpl.
  - now rewrite app_nil_r.
  - rewrite Hv; simpl. rewrite Hn; simpl. rewrite IH, <- app_assoc. reflexivity.
Qed.

Lemma append_projects_ok (table : loc_table) (acc : list BranchResult.t) :
  Forall (project_exposed (client self)) table ->
  append_projects self (map fst table) acc = Ok (acc ++ discovered table).
Proof.
  intros H; revert acc. induction H as [|p table [Hbr Hbs] _ IH]; intros acc; simpl.
  - now rewrite app_nil_r.
  - rewrite Hbr; simpl. rewrite (append_branches_ok _ _ _ Hbs); simpl.
    rewrite IH, <- app_assoc. reflexivity.
Qed.

Lemma get_branch_size_report_ok (table : loc_table) :
  exposes (client self) table ->
  get_branch_size_report self
  = Ok (branch_report_header
          ++ lines_of branch_row
               (sorted_reverse BranchResult.number_of_lines (discovered table)))%string.
Proof.
  intros [Hkeys Hex]. unfold get_branch_size_report.
  rewrite Hkeys; simpl. rewrite (append_projects_ok _ _ Hex); simpl.
  now rewrite write_rows_lines.
Qed.
End Loops.

(** ** Example instances are exposed by their servers *)

Lemma ncloc_branch_exposed (c : SonarQubeClient) (project branch : string) (n : Z)
    (resp : component_response) :
  get_component_with_specified_measures c (branch_query project branch) = Ok resp ->
  py_int (SonarQubeFacade.first_value_or_zero (measures (component resp))) = Ok n ->
  branch_exposed (facade_of c) project (branch, n).
Proof.
  intros Hq Hn. exists (SonarQubeFacade.first_value_or_zero (measures (component resp))).
  split; [| exact Hn].
  unfold SonarQubeFacade.get_branch_size, branch_query in *. simpl in *.
  rewrite Hq. reflexivity.
Qed.

Ltac exposed :=
  split; [reflexivity |];
  repeat (apply Forall_cons || apply Forall_nil);
  try (split; [reflexivity |]);
  repeat (apply Forall_cons || apply Forall_nil);
  try (eapply ncloc_branch_exposed; reflexivity).

Lemma scenario_exposed :
  exposes (facade_of (serving scenario scenario_trees)) scenario_table.
Proof. exposed. Qed.

Lemma tied_exposed : exposes (facade_of (serving tied [])) tied_table.
Proof. exposed. Qed.

Lemma branchless_exposed : exposes (facade_of (serving branchless [])) branchless_table.
Proof. exposed. Qed.

Lemma unmeasured_exposed : exposes (facade_of (serving unmeasured [])) unmeasured_table.
Proof. exposed. Qed.

(** ** The total size *)

Lemma sum_of_maxima_app (t1 t2 : loc_table) :
  sum_of_maxima (t1 ++ t2) = sum_of_maxima t1 + sum_of_maxima t2.
Proof.
  unfold sum_of_maxima. induction t1 as [|p t1 IH]; simpl; [reflexivity | lia].
Qed.

Lemma sum_of_maxima_cons (p : string * list (string * Z)) (t : loc_table) :
  sum_of_maxima (p :: t) = largest (map snd (snd p)) + sum_of_maxima t.
Proof. reflexivity. Qed.

(** C1: whenever the gateway returns a table of projects and branches in
    which every project has a branch, [get_total_size] is the sum over the
    projects of the largest branch LOC of the project, where the largest LOC
    is an element of the project's list that bounds the others.  A project
    with the single branch of 100 lines adds exactly 100, and the scenario
    A (main 100, feature 150), B (main 50) gives 200, which is not the sum
    300 of its branches. *)
Theorem get_total_size_sum_of_maxima :
  (forall self table,
      exposes (SonarQubeNumberOfLinesAnalysis.client self) table ->
      Forall (fun p => snd p <> []) table ->
      SonarQubeNumberOfLinesAnalysis.get_total_size self = Ok (sum_of_maxima table)
      /\ Forall (fun p => In (largest (map snd (snd p))) (map snd (snd p))
                          /\ Forall (fun n => n <= largest (map snd (snd p)))
                               (map snd (snd p))) table)
  /\ (forall before after project branch,
      sum_of_maxima (before ++ (project, [(branch, 100)]) :: after)
      = sum_of_maxima before + 100 + sum_of_maxima after)
  /\ SonarQubeNumberOfLinesAnalysis.get_total_size
       (analysis_of (serving scenario scenario_trees)) = Ok 200
  /\ sum_of_branches scenario_table = 300.
Proof.
  split; [| split; [| split]].
  - intros self table [Hkeys Hex] Hne. split.
    + unfold SonarQubeNumberOfLinesAnalysis.get_total_size.
      rewrite Hkeys; simpl. now rewrite (add_projects_ok self table 0 Hex Hne).
    + eapply Forall_impl; [| exact Hne].
      intros p Hp. cbv beta in Hp. apply largest_is_maximum.
      destruct (snd p); [congruence | discriminate].
  - intros before after project branch.
    rewrite sum_of_maxima_app, sum_of_maxima_cons.
    change (largest (map snd (snd (project, [(branch, 100)])))) with 100. lia.
  - reflexivity.
  - reflexivity.
Qed.

Lemma get_total_size_sum_of_maxima_witness :
  exposes (facade_of (serving tied [])) tied_table
  /\ Forall (fun p => snd p <> []) tied_table
  /\ SonarQubeNumberOfLinesAnalysis.get_total_size (analysis_of (serving tied []))
     = Ok 300.
Proof.
  split; [exact tied_exposed |].
  split; [repeat constructor; discriminate |].
  apply (proj1 (proj1 get_total_size_sum_of_maxima (analysis_of (serving tied []))
                  tied_table tied_exposed
                  ltac:(repeat constructor; discriminate))).
Defined.

(** C4: when the gateway returns a table in which every project has a
    branch, [get_total_size] returns a total; when some project of the table
    has no branch, the undefined maximum is not skipped as a contribution of
    0: the [ValueError] of [max] leaves [get_total_size], and whatever the
    other answers of the gateway are, a listed project with an empty branch
    listing makes [get_total_size] end with an exception. *)
Theorem get_total_size_branchless_project :
  (forall self table,
      exposes (SonarQubeNumberOfLinesAnalysis.client self) table ->
      Forall (fun p => snd p <> []) table ->
      exists total, SonarQubeNumberOfLinesAnalysis.get_total_size self = Ok total)
  /\ (forall self table,
      exposes (SonarQubeNumberOfLinesAnalysis.client self) table ->
      Exists (fun p => snd p = []) table ->
      SonarQubeNumberOfLinesAnalysis.get_total_size self
      = Err (ValueError "max() arg is an empty sequence"))
  /\ (forall self keys project,
      SonarQubeFacade.get_project_keys (SonarQubeNumberOfLinesAnalysis.client self)
      = Ok keys ->
      In project keys ->
      SonarQubeFacade.get_branches (SonarQubeNumberOfLinesAnalysis.client self) project
      = Ok [] ->
      exists e, SonarQubeNumberOfLinesAnalysis.get_total_size self = Err e).
Proof.
  split; [| split].
  - intros self table [Hkeys Hex] Hne. exists (sum_of_maxima table).
    unfold SonarQubeNumberOfLinesAnalysis.get_total_size.
    rewrite Hkeys; simpl. now rewrite (add_projects_ok self table 0 Hex Hne).
  - intros self table [Hkeys Hex] Hemp.
    unfold SonarQubeNumberOfLinesAnalysis.get_total_size.
    rewrite Hkeys; simpl. now apply add_projects_empty.
  - intros self keys project Hkeys Hin Hbr.
    unfold SonarQubeNumberOfLinesAnalysis.get_total_size.
    rewrite Hkeys; simpl. now apply add_projects_empty_fails with (project := project).
Qed.

Lemma get_total_size_branchless_project_witness :
  (exists total, SonarQubeNumberOfLinesAnalysis.get_total_size
                   (analysis_of (serving scenario scenario_trees)) = Ok total)
  /\ SonarQubeNumberOfLinesAnalysis.get_total_size (analysis_of (serving branchless []))
     = Err (ValueError "max() arg is an empty sequence")
  /\ (exists e, SonarQubeNumberOfLinesAnalysis.get_total_size
                  (analysis_of (serving branchless [])) = Err e).
Proof.
  split; [| split].
  - apply (proj1 get_total_size_branchless_project
             (analysis_of (serving scenario scenario_trees)) scenario_table
             scenario_exposed).
    repeat constructor; discriminate.
  - apply (proj1 (proj2 get_total_size_branchless_project)
             (analysis_of (serving branchless [])) branchless_table branchless_exposed).
    apply Exists_cons_tl, Exists_cons_hd. reflexivity.
  - apply (proj2 (proj2 get_total_size_branchless_project)
             (analysis_of (serving branchless [])) ["A"; "C"] "C").
    + reflexivity.
    + simpl; auto.
    + reflexivity.
Defined.

(** ** The branch report *)

Example scenario_branch_report :
  SonarQubeNumberOfLinesAnalysis.get_branch_size_report
    (analysis_of (serving scenario scenario_trees))
  = Ok ("Project, Branch, Number of lines of code" ++ newline
        ++ "A, feature, 150" ++ newline
        ++ "A, main, 100" ++ newline
        ++ "B, main, 50" ++ newline)%string.
Proof. reflexivity. Qed.

Example tied_branch_report :
  SonarQubeNumberOfLinesAnalysis.get_branch_size_report (analysis_of (serving tied []))
  = Ok ("Project, Branch, Number of lines of code" ++ newline
        ++ "B, main, 200" ++ newline
        ++ "A, main, 100" ++ newline
        ++ "A, dev, 100" ++ newline
        ++ "B, old, 100" ++ newline)%string.
Proof. reflexivity. Qed.

(** C2: when the gateway returns a table of (project, branch, LOC) triples,
    the rows of the branch report are in descending order of the LOC, and the
    rows of any one LOC value are in discovery order: project listing order,
    then branch listing order within the project. *)
Theorem branch_report_sorted_stable
    (self : SonarQubeNumberOfLinesAnalysis.t) (table : loc_table) :
  exposes (SonarQubeNumberOfLinesAnalysis.client self) table ->
  exists rows,
    SonarQubeNumberOfLinesAnalysis.get_branch_size_report self
    = Ok (SonarQubeNumberOfLinesAnalysis.branch_report_header
            ++ lines_of SonarQubeNumberOfLinesAnalysis.branch_row rows)%string
    /\ StronglySorted (key_ge BranchResult.number_of_lines) rows
    /\ forall n,
         filter (fun r => BranchResult.number_of_lines r =? n) rows
         = filter (fun r => BranchResult.number_of_lines r =? n) (discovered table).
Proof.
  intros Hex.
  exists (sorted_reverse BranchResult.number_of_lines (discovered table)).
  split; [now apply get_branch_size_report_ok |].
  split; [apply sorted_reverse_sorted |].
  intros n. apply sorted_reverse_stable.
Qed.

Lemma branch_report_sorted_stable_witness :
  exists rows,
    SonarQubeNumberOfLinesAnalysis.get_branch_size_report (analysis_of (serving tied []))
    = Ok (SonarQubeNumberOfLinesAnalysis.branch_report_header
            ++ lines_of SonarQubeNumberOfLinesAnalysis.branch_row rows)%string
    /\ StronglySorted (key_ge BranchResult.number_of_lines) rows
    /\ forall n,
         filter (fun r => BranchResult.number_of_lines r =? n) rows
         = filter (fun r => BranchResult.number_of_lines r =? n) (discovered tied_table).
Proof.
  apply (branch_report_sorted_stable (analysis_of (serving tied [])) tied_table).
  exact tied_exposed.
Defined.

Lemma discovered_pairs (table : loc_table) :
  map (fun r => (BranchResult.identifier r, BranchResult.branch_name r)) (discovered table)
  = pairs table.
Proof.
  unfold discovered, pairs. induction table as [|p table IH]; simpl; [reflexivity |].
  rewrite map_app, IH, map_map. reflexivity.
Qed.

(** C8: when the gateway returns a table, the branch report is the header
    line [Project, Branch, Number of lines of code] followed by one row for
    each (project, branch) pair of the table and no other row; a row is the
    project, the branch and the LOC separated by a comma and a blank, and
    ends with a newline. *)
Theorem branch_report_csv
    (self : SonarQubeNumberOfLinesAnalysis.t) (table : loc_table) :
  exposes (SonarQubeNumberOfLinesAnalysis.client self) table ->
  exists rows,
    Permutation rows (discovered table)
    /\ Permutation
         (map (fun r => (BranchResult.identifier r, BranchResult.branch_name r)) rows)
         (pairs table)
    /\ SonarQubeNumberOfLinesAnalysis.get_branch_size_report self
       = Ok ("Project, Branch, Number of lines of code" ++ newline
             ++ lines_of
                  (fun r => BranchResult.identifier r ++ ", "
                            ++ BranchResult.branch_name r ++ ", "
                            ++ str_of_int (BranchResult.number_of_lines r) ++ newline)
                  rows)%string.
Proof.
  intros Hex.
  exists (sorted_reverse BranchResult.number_of_lines (discovered table)).
  assert (Hperm : Permutation
                    (sorted_reverse BranchResult.number_of_lines (discovered table))
                    (discovered table))
    by (symmetry; apply sorted_reverse_perm).
  split; [exact Hperm |].
  split.
  - rewrite <- discovered_pairs. now apply Permutation_map.
  - rewrite (get_branch_size_report_ok self table Hex).
    unfold SonarQubeNumberOfLinesAnalysis.branch_report_header.
    now rewrite append_assoc.
Qed.

Lemma branch_report_csv_witness :
  exists rows,
    Permutation rows (discovered scenario_table)
    /\ Permutation
         (map (fun r => (BranchResult.identifier r, BranchResult.branch_name r)) rows)
         [("A", "main"); ("A", "feature"); ("B", "main")]
    /\ SonarQubeNumberOfLinesAnalysis.get_branch_size_report
         (analysis_of (serving scenario scenario_trees))
       = Ok ("Project, Branch, Number of lines of code" ++ newline
             ++ lines_of
                  (fun r => BranchResult.identifier r ++ ", "
                            ++ BranchResult.branch_name r ++ ", "
                            ++ str_of_int (BranchResult.number_of_lines r) ++ newline)
                  rows)%string.
Proof.
  apply (branch_report_csv (analysis_of (serving scenario scenario_trees)) scenario_table).
  exact scenario_exposed.
Defined.

(** *** Determinism *)

Section SameResponses.
Import SonarQubeNumberOfLinesAnalysis.
Variables self1 self2 : SonarQubeNumberOfLinesAnalysis.t.

Lemma append_branches_same (project : string) (bs : list string)
    (acc : list BranchResult.t) :
  (forall branch, In branch bs ->
     SonarQubeFacade.get_branch_size (client self1) project branch
     = SonarQubeFacade.get_branch_size (client self2) project branch) ->
  append_branches self1 project bs acc = append_branches self2 project bs acc.
Proof.
  revert acc; induction bs as [|b bs IH]; intros acc H; simpl; [reflexivity |].
  rewrite (H b (or_introl eq_refl)).
  destruct (SonarQubeFacade.get_branch_size (client self2) project b) as [v|e];
    simpl; [| reflexivity].
  destruct (py_int v) as [n|e]; simpl; [| reflexivity].
  apply IH. intros branch Hin. apply H. now right.
Qed.

Lemma append_projects_same (keys : list string) (acc : list BranchResult.t) :
  (forall project, In project keys ->
     SonarQubeFacade.get_branches (client self1) project
     = SonarQubeFacade.get_branches (client self2) project
     /\ forall bs, SonarQubeFacade.get_branches (client self1) project = Ok bs ->
        forall branch, In branch bs ->
          SonarQubeFacade.get_branch_size (client self1) project branch
          = SonarQubeFacade.get_branch_size (client self2) project branch) ->
  append_projects self1 keys acc = append_projects self2 keys acc.
Proof.
  revert acc; induction keys as [|k keys IH]; intros acc H; simpl; [reflexivity |].
  destruct (H k (or_introl eq_refl)) as [Hbr Hsz]. rewrite <- Hbr.
  destruct (SonarQubeFacade.get_branches (client self1) k) as [bs|e] eqn:Hk;
    simpl; [| reflexivity].
  rewrite (append_branches_same k bs acc (Hsz bs eq_refl)).
  destruct (append_branches self2 k bs acc) as [acc'|e]; simpl; [| reflexivity].
  apply IH. intros project Hin. apply H. now right.
Qed.
End SameResponses.

(** C9: two invocations of [get_branch_size_report] whose gateways give
    identical responses (the same projects, branches and sizes in the same
    order, or the same exception) produce the same result, hence the same
    CSV text character by character. *)
Theorem branch_report_deterministic (self1 self2 : SonarQubeNumberOfLinesAnalysis.t) :
  same_responses (SonarQubeNumberOfLinesAnalysis.client self1)
                 (SonarQubeNumberOfLinesAnalysis.client self2) ->
  SonarQubeNumberOfLinesAnalysis.get_branch_size_report self1
  = SonarQubeNumberOfLinesAnalysis.get_branch_size_report self2.
Proof.
  intros [Hkeys Hrest]. unfold SonarQubeNumberOfLinesAnalysis.get_branch_size_report.
  rewrite <- Hkeys.
  destruct (SonarQubeFacade.get_project_keys (SonarQubeNumberOfLinesAnalysis.client self1))
    as [keys|e]; simpl; [| reflexivity].
  rewrite (append_projects_same self1 self2 keys [] (Hrest keys eq_refl)).
  reflexivity.
Qed.

Lemma branch_report_deterministic_witness :
  SonarQubeNumberOfLinesAnalysis.get_branch_size_report
    (analysis_of (serving scenario scenario_trees))
  = SonarQubeNumberOfLinesAnalysis.get_branch_size_report
      (SonarQubeNumberOfLinesAnalysis.mk
         (SonarQubeFacade.mk "https://mirror.example" None (serving scenario []))).
Proof.
  apply branch_report_deterministic.
  split; [reflexivity |].
  intros keys _ project _. split; [reflexivity |].
  intros bs _ branch _. reflexivity.
Defined.

(** *** A branch without the metric *)

Lemma in_lines_of {A : Type} (row : A -> string) (x : A) (items : list A) :
  In x items ->
  exists before after, lines_of row items = (before ++ row x ++ after)%string.
Proof.
  intros Hin. destruct (in_split x items Hin) as [l1 [l2 ->]].
  exists (lines_of row l1), (lines_of row l2).
  now rewrite lines_of_app, lines_of_cons.
Qed.

Lemma in_discovered (table : loc_table) (project branch : string)
    (bs : list (string * Z)) (n : Z) :
  In (project, bs) table -> In (branch, n) bs ->
  In (BranchResult.mk n project branch) (discovered table).
Proof.
  intros Hp Hb. unfold discovered. apply in_flat_map.
  exists (project, bs). split; [exact Hp |].
  apply in_map_iff. exists (branch, n). split; [reflexivity | exact Hb].
Qed.

(** C5: when the response for a branch has an empty list of measures,
    [get_branch_size] returns the integer 0 and raises nothing; and a branch
    of the returned table whose size came back as that 0 has its row, with
    the value 0, among the data rows of the branch report. *)
Theorem get_branch_size_absent_metric :
  (forall gateway project branch resp,
      get_component_with_specified_measures (SonarQubeFacade._client gateway)
        (branch_query project branch) = Ok resp ->
      measures (component resp) = [] ->
      SonarQubeFacade.get_branch_size gateway project branch = Ok (PyInt 0))
  /\ (forall self table project bs branch n,
      exposes (SonarQubeNumberOfLinesAnalysis.client self) table ->
      In (project, bs) table -> In (branch, n) bs ->
      SonarQubeFacade.get_branch_size (SonarQubeNumberOfLinesAnalysis.client self)
        project branch = Ok (PyInt 0) ->
      exists before after,
        SonarQubeNumberOfLinesAnalysis.get_branch_size_report self
        = Ok (SonarQubeNumberOfLinesAnalysis.branch_report_header ++ before
              ++ (project ++ ", " ++ branch ++ ", " ++ "0" ++ newline)
              ++ after)%string).
Proof.
  split.
  - intros gateway project branch resp Hq Hm.
    unfold SonarQubeFacade.get_branch_size. unfold branch_query in Hq.
    rewrite Hq; simpl. rewrite Hm. reflexivity.
  - intros self table project bs branch n Hex Hp Hb Hzero.
    assert (Hn : n = 0).
    { destruct Hex as [_ Hall]. rewrite Forall_forall in Hall.
      destruct (Hall _ Hp) as [_ Hbs]. rewrite Forall_forall in Hbs.
      destruct (Hbs _ Hb) as [v [Hv Hint]]. simpl in Hv, Hint.
      rewrite Hzero in Hv. injection Hv as <-. simpl in Hint. congruence. }
    subst n.
    pose proof (in_discovered table project branch bs 0 Hp Hb) as Hin.
    apply (Permutation_in _ (sorted_reverse_perm BranchResult.number_of_lines _)) in Hin.
    destruct (in_lines_of SonarQubeNumberOfLinesAnalysis.branch_row _ _ Hin)
      as [before [after Hlines]].
    exists before, after.
    rewrite (get_branch_size_report_ok self table Hex), Hlines. reflexivity.
Qed.

Lemma get_branch_size_absent_metric_witness :
  SonarQubeFacade.get_branch_size (facade_of (serving unmeasured [])) "A" "empty"
  = Ok (PyInt 0)
  /\ exists before after,
       SonarQubeNumberOfLinesAnalysis.get_branch_size_report
         (analysis_of (serving unmeasured []))
       = Ok (SonarQubeNumberOfLinesAnalysis.branch_report_header ++ before
             ++ ("A" ++ ", " ++ "empty" ++ ", " ++ "0" ++ newline)
             ++ after)%string.
Proof.
  split.
  - apply (proj1 get_branch_size_absent_metric (facade_of (serving unmeasured []))
             "A" "empty" {| component := {| path := EmptyString; measures := [] |} |});
      reflexivity.
  - apply (proj2 get_branch_size_absent_metric (analysis_of (serving unmeasured []))
             unmeasured_table "A" [("main", 100); ("empty", 0)] "empty" 0).
    + exact unmeasured_exposed.
    + simpl; auto.
    + simpl; auto.
    + reflexivity.
Defined.

Example unmeasured_branch_report :
  SonarQubeNumberOfLinesAnalysis.get_branch_size_report
    (analysis_of (serving unmeasured []))
  = Ok ("Project, Branch, Number of lines of code" ++ newline
        ++ "A, main, 100" ++ newline
        ++ "A, empty, 0" ++ newline)%string.
Proof. reflexivity. Qed.

(** ** The top files report *)

Lemma slice_to_prefix {A : Type} (l : list A) (n : Z) :
  exists rest, l = slice_to l n ++ rest.
Proof.
  unfold slice_to. destruct (0 <=? n).
  - exists (skipn (Z.to_nat n) l). now rewrite firstn_skipn.
  - exists (skipn (Z.to_nat (Z.of_nat (length l) + n)) l). now rewrite firstn_skipn.
Qed.

Lemma slice_to_nonneg {A : Type} (l : list A) (n : Z) :
  0 <= n -> slice_to l n = firstn (Z.to_nat n) l.
Proof.
  intros H. unfold slice_to. destruct (Z.leb_spec 0 n); [reflexivity | lia].
Qed.

Lemma get_top_x_files_report_ok (self : SonarQubeNumberOfLinesAnalysis.t)
    (project_key branch_name : string) (top_x : Z) (files : list Result.t) :
  SonarQubeFacade.get_file_sizes (SonarQubeNumberOfLinesAnalysis.client self)
    project_key branch_name = Ok files ->
  SonarQubeNumberOfLinesAnalysis.get_top_x_files_report self project_key branch_name top_x
  = Ok (SonarQubeNumberOfLinesAnalysis.top_files_header
        ++ lines_of (SonarQubeNumberOfLinesAnalysis.file_row project_key branch_name)
             (slice_to files top_x))%string.
Proof.
  intros H. unfold SonarQubeNumberOfLinesAnalysis.get_top_x_files_report.
  rewrite H; simpl. now rewrite write_rows_lines.
Qed.

(** C6: for a non-negative [top_x], the data rows of the top files report
    are the rows of the first [top_x] files of the branch and of no other
    file: there are min(top_x, number of files) of them, never more than
    [top_x], and they are the rows of all files of the branch when there are
    no more than [top_x] files.  Over the files x.py 80, y.py 60, z.py 10
    and [top_x = 2] the report has exactly the rows of x.py and y.py. *)
Theorem top_files_at_most_top_x :
  (forall self project_key branch_name top_x files,
      0 <= top_x ->
      SonarQubeFacade.get_file_sizes (SonarQubeNumberOfLinesAnalysis.client self)
        project_key branch_name = Ok files ->
      SonarQubeNumberOfLinesAnalysis.get_top_x_files_report self
        project_key branch_name top_x
      = Ok (SonarQubeNumberOfLinesAnalysis.top_files_header
            ++ lines_of (SonarQubeNumberOfLinesAnalysis.file_row project_key branch_name)
                 (firstn (Z.to_nat top_x) files))%string
      /\ Z.of_nat (length (firstn (Z.to_nat top_x) files))
         = Z.min top_x (Z.of_nat (length files))
      /\ Z.of_nat (length (firstn (Z.to_nat top_x) files)) <= top_x
      /\ (Z.of_nat (length files) <= top_x -> firstn (Z.to_nat top_x) files = files))
  /\ SonarQubeNumberOfLinesAnalysis.get_top_x_files_report
       (analysis_of (serving scenario scenario_trees)) "A" "main" 2
     = Ok ("Project, Branch, Path, Number of lines of code" ++ newline
           ++ "A, main, x.py, 80" ++ newline
           ++ "A, main, y.py, 60" ++ newline)%string.
Proof.
  split; [| reflexivity].
  intros self project_key branch_name top_x files Hx Hfiles.
  split; [| split; [| split]].
  - rewrite (get_top_x_files_report_ok _ _ _ top_x _ Hfiles).
    now rewrite slice_to_nonneg.
  - rewrite length_firstn. lia.
  - rewrite length_firstn. lia.
  - intros Hfew. apply firstn_all2. lia.
Qed.

Lemma top_files_at_most_top_x_witness :
  SonarQubeNumberOfLinesAnalysis.get_top_x_files_report
    (analysis_of (serving scenario scenario_trees)) "A" "main" 1
  = Ok (SonarQubeNumberOfLinesAnalysis.top_files_header
        ++ lines_of (SonarQubeNumberOfLinesAnalysis.file_row "A" "main")
             [Result.mk (PyStr "80") "x.py"])%string
  /\ SonarQubeNumberOfLinesAnalysis.get_top_x_files_report
       (analysis_of (serving scenario scenario_trees)) "A" "main" 5
     = Ok (SonarQubeNumberOfLinesAnalysis.top_files_header
           ++ lines_of (SonarQubeNumberOfLinesAnalysis.file_row "A" "main")
                [Result.mk (PyStr "80") "x.py"; Result.mk (PyStr "60") "y.py";
                 Result.mk (PyStr "10") "z.py"])%string.
Proof.
  split.
  - apply (proj1 top_files_at_most_top_x (analysis_of (serving scenario scenario_trees))
             "A" "main" 1
             [Result.mk (PyStr "80") "x.py"; Result.mk (PyStr "60") "y.py";
              Result.mk (PyStr "10") "z.py"]).
    + lia.
    + reflexivity.
  - apply (proj1 top_files_at_most_top_x (analysis_of (serving scenario scenario_trees))
             "A" "main" 5
             [Result.mk (PyStr "80") "x.py"; Result.mk (PyStr "60") "y.py";
              Result.mk (PyStr "10") "z.py"]).
    + lia.
    + reflexivity.
Defined.

(** C10: whatever the order of the file sequence the gateway returns, the
    data rows of the top files report are the rows of the slice
    [file_sizes[:top_x]], one per entry and in the order of the entries; the
    slice is a leading part of the sequence, and for a non-negative [top_x]
    it is the first [top_x] entries (all, when there are fewer). *)
Theorem top_files_first_entries
    (self : SonarQubeNumberOfLinesAnalysis.t) (project_key branch_name : string)
    (top_x : Z) (files : list Result.t) :
  SonarQubeFacade.get_file_sizes (SonarQubeNumberOfLinesAnalysis.client self)
    project_key branch_name = Ok files ->
  exists rows,
    SonarQubeNumberOfLinesAnalysis.get_top_x_files_report self project_key branch_name top_x
    = Ok (SonarQubeNumberOfLinesAnalysis.top_files_header
          ++ String.concat EmptyString
               (map (fun f => project_key ++ ", " ++ branch_name ++ ", "
                               ++ Result.identifier f ++ ", "
                               ++ py_str (Result.number_of_lines f) ++ newline)
                  rows))%string
    /\ (exists rest, files = rows ++ rest)
    /\ (0 <= top_x -> rows = firstn (Z.to_nat top_x) files).
Proof.
  intros Hfiles. exists (slice_to files top_x).
  split; [| split].
  - exact (get_top_x_files_report_ok self project_key branch_name top_x files Hfiles).
  - apply slice_to_prefix.
  - apply slice_to_nonneg.
Qed.

Lemma top_files_first_entries_witness :
  exists rows,
    SonarQubeNumberOfLinesAnalysis.get_top_x_files_report
      (analysis_of (serving scenario unsorted_trees)) "A" "main" 1
    = Ok (SonarQubeNumberOfLinesAnalysis.top_files_header
          ++ String.concat EmptyString
               (map (fun f => "A" ++ ", " ++ "main" ++ ", "
                               ++ Result.identifier f ++ ", "
                               ++ py_str (Result.number_of_lines f) ++ newline)
                  rows))%string
    /\ (exists rest,
          [Result.mk (PyStr "10") "a.py"; Result.mk (PyStr "80") "b.py"] = rows ++ rest)
    /\ (0 <= 1 -> rows = [Result.mk (PyStr "10") "a.py"]).
Proof.
  apply (top_files_first_entries (analysis_of (serving scenario unsorted_trees))
           "A" "main" 1
           [Result.mk (PyStr "10") "a.py"; Result.mk (PyStr "80") "b.py"]).
  reflexivity.
Defined.

Example unsorted_top_file :
  SonarQubeNumberOfLinesAnalysis.get_top_x_files_report
    (analysis_of (serving scenario unsorted_trees)) "A" "main" 1
  = Ok ("Project, Branch, Path, Number of lines of code" ++ newline
        ++ "A, main, a.py, 10" ++ newline)%string.
Proof. reflexivity. Qed.

(** A negative bound drops entries from the end of the sequence. *)
Example all_but_last_file :
  SonarQubeNumberOfLinesAnalysis.get_top_x_files_report
    (analysis_of (serving scenario scenario_trees)) "A" "main" (-1)
  = Ok ("Project, Branch, Path, Number of lines of code" ++ newline
        ++ "A, main, x.py, 80" ++ newline
        ++ "A, main, y.py, 60" ++ newline)%string.
Proof. reflexivity. Qed.

(** ** The file listing *)

Lemma file_results_ok (comps : list component_json) :
  Forall (fun c => measures c <> []) comps ->
  comprehension SonarQubeFacade.file_result comps = Ok (map entry_of comps).
Proof.
  intros H. apply comprehension_ok.
  eapply Forall_impl; [| exact H].
  intros c Hc. unfold SonarQubeFacade.file_result, entry_of. cbv beta in Hc.
  destruct (measures c) as [|m ms]; [congruence | reflexivity].
Qed.

Lemma StronglySorted_map {A B : Type} (f : A -> B) (R : B -> B -> Prop) (l : list A) :
  StronglySorted (fun a b => R (f a) (f b)) l -> StronglySorted R (map f l).
Proof.
  induction 1 as [|a l _ IH Ha]; simpl; constructor; [exact IH |].
  apply Forall_map. exact Ha.
Qed.

Lemma file_results_inv (comps : list component_json) (files : list Result.t) :
  comprehension SonarQubeFacade.file_result comps = Ok files ->
  files = map entry_of comps.
Proof.
  revert files. induction comps as [|c comps IH]; intros files; simpl.
  - intros H. now injection H as <-.
  - unfold SonarQubeFacade.file_result at 1, entry_of at 1.
    destruct (measures c) as [|m ms]; simpl; [discriminate |].
    destruct (comprehension SonarQubeFacade.file_result comps) as [rest|e];
      simpl; [| discriminate].
    intros H. injection H as <-. now rewrite (IH rest eq_refl).
Qed.

(** C7, as the code has it: [get_file_sizes] asks the server for the leaves
    sorted by ncloc in descending order and does not sort them itself.
    Whenever it returns, the result has one entry per component of the
    response, in the order of the response, each with the path and the first
    measure of its component, so that it is in descending order of the LOC
    whenever the response is; and it returns, with these entries, whenever
    the server answers and every component of the response carries a
    measure. *)
Theorem get_file_sizes_server_order
    (gateway : SonarQubeFacade.t) (project_key branch_name : string)
    (comps : list component_json) :
  get_component_tree_with_specified_measures (SonarQubeFacade._client gateway)
    {| tq_component := project_key; tq_branch := branch_name;
       tq_metricKeys := "ncloc"; tq_strategy := "leaves";
       tq_metricSort := "ncloc"; tq_asc := "false"; tq_s := "metric" |} = Ok comps ->
  (forall files,
      SonarQubeFacade.get_file_sizes gateway project_key branch_name = Ok files ->
      map Result.identifier files = map path comps
      /\ map Result.number_of_lines files
         = map (fun c => SonarQubeFacade.first_value_or_zero (measures c)) comps
      /\ (StronglySorted (fun c1 c2 => loc_ge (entry_of c1) (entry_of c2)) comps ->
          StronglySorted loc_ge files))
  /\ (Forall (fun c => measures c <> []) comps ->
      SonarQubeFacade.get_file_sizes gateway project_key branch_name
      = Ok (map (fun c => Result.mk (SonarQubeFacade.first_value_or_zero (measures c))
                            (path c)) comps)).
Proof.
  intros Hq. unfold SonarQubeFacade.get_file_sizes. rewrite Hq; simpl. split.
  - intros files Hfiles. apply file_results_inv in Hfiles. subst files.
    split; [| split].
    + now rewrite map_map.
    + now rewrite map_map.
    + apply StronglySorted_map.
  - intros Hm. exact (file_results_ok comps Hm).
Qed.

Lemma get_file_sizes_server_order_witness :
  (forall files,
      SonarQubeFacade.get_file_sizes (facade_of (serving scenario unsorted_trees))
        "A" "main" = Ok files ->
      map Result.identifier files = ["a.py"; "b.py"]
      /\ map Result.number_of_lines files = [PyStr "10"; PyStr "80"]
      /\ (StronglySorted (fun c1 c2 => loc_ge (entry_of c1) (entry_of c2))
            [ {| path := "a.py"; measures := [ncloc "10"] |};
              {| path := "b.py"; measures := [ncloc "80"] |} ] ->
          StronglySorted loc_ge files))
  /\ SonarQubeFacade.get_file_sizes (facade_of (serving scenario scenario_trees))
       "A" "main"
     = Ok [Result.mk (PyStr "80") "x.py"; Result.mk (PyStr "60") "y.py";
           Result.mk (PyStr "10") "z.py"].
Proof.
  split.
  - exact (proj1 (get_file_sizes_server_order
                    (facade_of (serving scenario unsorted_trees)) "A" "main"
                    [ {| path := "a.py"; measures := [ncloc "10"] |};
                      {| path := "b.py"; measures := [ncloc "80"] |} ] eq_refl)).
  - exact (proj2 (get_file_sizes_server_order
                    (facade_of (serving scenario scenario_trees)) "A" "main"
                    [ {| path := "x.py"; measures := [ncloc "80"] |};
                      {| path := "y.py"; measures := [ncloc "60"] |};
                      {| path := "z.py"; measures := [ncloc "10"] |} ] eq_refl)
             ltac:(repeat constructor; discriminate)).
Defined.

(** C7 as stated fails: a response that lists a.py (10 lines) before b.py
    (80 lines) is returned in that order. *)
Lemma get_file_sizes_not_always_sorted :
  ~ (forall gateway project_key branch_name files,
       SonarQubeFacade.get_file_sizes gateway project_key branch_name = Ok files ->
       StronglySorted loc_ge files).
Proof.
  intros Hclaim.
  specialize (Hclaim (facade_of (serving scenario unsorted_trees)) "A" "main"
                [Result.mk (PyStr "10") "a.py"; Result.mk (PyStr "80") "b.py"] eq_refl).
  apply StronglySorted_inv in Hclaim. destruct Hclaim as [_ Hall].
  inversion Hall as [|? ? [a [b [Ha [Hb Hle]]]] _]; subst.
  vm_compute in Ha, Hb.
  injection Ha as <-. injection Hb as <-. lia.
Qed.

(** ** The credentials *)

(** C3, as the code has it: the constructor resolves the token.  A non-empty
    token argument is the token; with an empty argument the token is the
    value of the environment variable SONARQUBE_ADMIN_TOKEN, and absent when
    the variable is not set.  The constructor does not fail, the client is
    created with the resolved token even when it is absent, and a gateway
    call answers what that client answers. *)
Theorem token_resolution
    (new_client : string -> option string -> SonarQubeClient) (env : environ)
    (url token : string) :
  let gateway := SonarQubeFacade.__init__ new_client env url token in
  (token <> EmptyString -> SonarQubeFacade._token gateway = Some token)
  /\ (token = EmptyString ->
      SonarQubeFacade._token gateway = getenv env "SONARQUBE_ADMIN_TOKEN")
  /\ (token = EmptyString -> getenv env "SONARQUBE_ADMIN_TOKEN" = None ->
      SonarQubeFacade._token gateway = None
      /\ SonarQubeFacade._client gateway = new_client url None)
  /\ SonarQubeFacade._client gateway = new_client url (SonarQubeFacade._token gateway)
  /\ SonarQubeFacade.get_project_keys gateway
     = (return_object <- search_projects (new_client url (SonarQubeFacade._token gateway)) ;;
        Ok (map key return_object)).
Proof.
  cbv zeta. unfold SonarQubeFacade.__init__, SonarQubeFacade._create_client,
    SonarQubeFacade._get_token_from_environment_variables,
    SonarQubeFacade.get_project_keys.
  destruct (String.eqb_spec token EmptyString) as [-> | Hne]; simpl.
  - repeat split; try reflexivity; try congruence.
    all: intros _ H; now rewrite H.
  - repeat split; try reflexivity; congruence.
Qed.

Lemma token_resolution_witness :
  SonarQubeFacade._token
    (SonarQubeFacade.__init__ anonymous_access
       [("SONARQUBE_ADMIN_TOKEN", "from-env")] "https://sonarqube.example" "from-cli")
  = Some "from-cli"
  /\ SonarQubeFacade._token
       (SonarQubeFacade.__init__ anonymous_access
          [("SONARQUBE_ADMIN_TOKEN", "from-env")] "https://sonarqube.example" EmptyString)
     = Some "from-env"
  /\ SonarQubeFacade._token
       (SonarQubeFacade.__init__ anonymous_access [] "https://sonarqube.example" EmptyString)
     = None.
Proof.
  split; [| split].
  - apply (proj1 (token_resolution anonymous_access
                    [("SONARQUBE_ADMIN_TOKEN", "from-env")]
                    "https://sonarqube.example" "from-cli")).
    discriminate.
  - apply (proj1 (proj2 (token_resolution anonymous_access
                           [("SONARQUBE_ADMIN_TOKEN", "from-env")]
                           "https://sonarqube.example" EmptyString))).
    reflexivity.
  - apply (proj1 (proj2 (proj2 (token_resolution anonymous_access []
                                  "https://sonarqube.example" EmptyString)))); reflexivity.
Defined.

(** C3 as stated fails: with no token argument and no environment variable,
    the first gateway call on a server with anonymous access returns the
    project keys; no ConfigError is raised, at construction or later. *)
Lemma missing_token_no_config_error :
  ~ (forall new_client env url,
       getenv env "SONARQUBE_ADMIN_TOKEN" = None ->
       exists e, SonarQubeFacade.get_project_keys
                   (SonarQubeFacade.__init__ new_client env url EmptyString) = Err e).
Proof.
  intros Hclaim.
  destruct (Hclaim anonymous_access [] "https://sonarqube.example" eq_refl) as [e He].
  discriminate He.
Qed.

(** ** Reading back what [str] prints *)

Lemma string_rev_app (a b : string) :
  string_rev (a ++ b) = (string_rev b ++ string_rev a)%string.
Proof.
  induction a as [|c a IH]; simpl.
  - now rewrite append_empty_r.
  - now rewrite IH, append_assoc.
Qed.

Lemma string_rev_involutive (s : string) : string_rev (string_rev s) = s.
Proof.
  induction s as [|c s IH]; simpl; [reflexivity |].
  rewrite string_rev_app, IH. reflexivity.
Qed.

Lemma all_chars_app (test : ascii -> bool) (a b : string) :
  all_chars test (a ++ b) = all_chars test a && all_chars test b.
Proof.
  induction a as [|c a IH]; simpl; [reflexivity |].
  now rewrite IH, andb_assoc.
Qed.

Lemma all_chars_rev (test : ascii -> bool) (s : string) :
  all_chars test (string_rev s) = all_chars test s.
Proof.
  induction s as [|c s IH]; simpl; [reflexivity |].
  rewrite all_chars_app, IH. simpl. rewrite andb_true_r. apply andb_comm.
Qed.

Lemma lstrip_no_space (s : string) : all_chars not_space s = true -> lstrip s = s.
Proof.
  destruct s as [|c s]; simpl; [reflexivity |].
  unfold not_space. intros H. apply andb_prop in H. destruct H as [Hc _].
  destruct (is_space c); [discriminate | reflexivity].
Qed.

(** [strip] leaves a string without blanks as it is. *)
Lemma strip_no_space (s : string) : all_chars not_space s = true -> strip s = s.
Proof.
  intros H. unfold strip. rewrite (lstrip_no_space s H).
  rewrite lstrip_no_space by now rewrite all_chars_rev.
  apply string_rev_involutive.
Qed.

Lemma uint_no_space (d : Decimal.uint) :
  all_chars not_space (NilEmpty.string_of_uint d) = true.
Proof.
  induction d; simpl; try reflexivity; exact IHd.
Qed.

Lemma parse_digits_uint (d : Decimal.uint) (acc : Z) (prev : bool) :
  d <> Decimal.Nil \/ prev = true ->
  parse_digits (NilEmpty.string_of_uint d) acc prev = Some (horner d acc).
Proof.
  revert acc prev. induction d; intros acc prev H;
    try (simpl NilEmpty.string_of_uint; simpl horner;
         unfold parse_digits; fold parse_digits;
         match goal with
         | |- context [digit_of ?c] =>
             change (digit_of c) with
               (Some (Z.of_nat (nat_of_ascii c - 48)))
         end;
         cbv iota beta; rewrite IHd by (now right);
         f_equal; f_equal; simpl; lia).
  simpl. destruct H as [H | ->]; [congruence | reflexivity].
Qed.

Lemma horner_of_uint_acc (d : Decimal.uint) (acc : positive) :
  Z.pos (Pos.of_uint_acc d acc) = horner d (Z.pos acc).
Proof.
  revert acc. induction d; intros acc; cbn [Pos.of_uint_acc horner];
    try reflexivity; rewrite IHd; f_equal; lia.
Qed.

Lemma horner_of_uint (d : Decimal.uint) : Z.of_N (Pos.of_uint d) = horner d 0.
Proof.
  induction d; cbn [Pos.of_uint horner]; try reflexivity; try exact IHd;
    cbn [Z.of_N]; rewrite horner_of_uint_acc; reflexivity.
Qed.

Lemma unsigned_literal (c : ascii) (rest : string) :
  Ascii.eqb c "+" = false -> Ascii.eqb c "-" = false ->
  match String c rest with
  | String "+" body => parse_digits body 0 false
  | String "-" body => option_map Z.opp (parse_digits body 0 false)
  | body => parse_digits body 0 false
  end = parse_digits (String c rest) 0 false.
Proof.
  destruct c as [[] [] [] [] [] [] [] []]; intros H1 H2;
    try reflexivity; discriminate.
Qed.

Lemma int_of_str_uint (d : Decimal.uint) :
  d <> Decimal.Nil -> int_of_str (NilEmpty.string_of_uint d) = Some (horner d 0).
Proof.
  intros Hd. unfold int_of_str. rewrite strip_no_space by apply uint_no_space.
  rewrite <- (parse_digits_uint d 0 false) by now left.
  destruct d; try congruence; simpl NilEmpty.string_of_uint;
    match goal with
    | |- _ = parse_digits (String ?c ?r) _ _ =>
        exact (unsigned_literal c r eq_refl eq_refl)
    end.
Qed.

Lemma string_of_uint_nonnil (d : Decimal.uint) :
  d <> Decimal.Nil -> NilZero.string_of_uint d = NilEmpty.string_of_uint d.
Proof.
  destruct d; [congruence | reflexivity ..].
Qed.

(** [int(str(n))] is [n]. *)
Lemma int_of_str_of_int (n : Z) : int_of_str (str_of_int n) = Some n.
Proof.
  destruct n as [|p|p]; [reflexivity | |]; unfold str_of_int; simpl Z.to_int;
    simpl NilZero.string_of_int;
    rewrite string_of_uint_nonnil by apply Unsigned.to_uint_nonnil.
  - rewrite int_of_str_uint by apply Unsigned.to_uint_nonnil.
    rewrite <- horner_of_uint, Unsigned.of_to. reflexivity.
  - unfold int_of_str. rewrite strip_no_space
      by (simpl; apply uint_no_space).
    change (option_map Z.opp
              (parse_digits (NilEmpty.string_of_uint (Pos.to_uint p)) 0 false)
            = Some (Z.neg p)).
    rewrite parse_digits_uint by (left; apply Unsigned.to_uint_nonnil).
    rewrite <- horner_of_uint, Unsigned.of_to. reflexivity.
Qed.



(** ** Failures *)

Lemma comprehension_first_error {A B : Type} (f : A -> result B) (g : A -> B)
    (done : list A) (x : A) (rest : list A) (e : exn) :
  Forall (fun y => f y = Ok (g y)) done -> f x = Err e ->
  comprehension f (done ++ x :: rest) = Err e.
Proof.
  induction 1 as [|y done Hy _ IH]; intros Hx; simpl.
  - now rewrite Hx.
  - rewrite Hy; simpl. now rewrite IH.
Qed.

Lemma file_results_index_error (comps : list component_json) :
  Exists (fun c => measures c = []) comps ->
  comprehension SonarQubeFacade.file_result comps
  = Err (IndexError "list index out of range").
Proof.
  induction 1 as [c comps Hc | c comps _ IH]; simpl.
  - unfold SonarQubeFacade.file_result at 1. now rewrite Hc.
  - unfold SonarQubeFacade.file_result at 1.
    destruct (measures c); simpl; [reflexivity |]. now rewrite IH.
Qed.

(** X2: when the component tree of a branch contains a file without any
    measure, [get_file_sizes] raises IndexError, and so does the top files
    report for every [top_x], also when the file lies beyond the first
    [top_x] entries. *)
Theorem file_without_measure_fails
    (self : SonarQubeNumberOfLinesAnalysis.t) (project_key branch_name : string)
    (comps : list component_json) (top_x : Z) :
  get_component_tree_with_specified_measures
    (SonarQubeFacade._client (SonarQubeNumberOfLinesAnalysis.client self))
    (leaves_query project_key branch_name) = Ok comps ->
  Exists (fun c => measures c = []) comps ->
  SonarQubeFacade.get_file_sizes (SonarQubeNumberOfLinesAnalysis.client self)
    project_key branch_name = Err (IndexError "list index out of range")
  /\ SonarQubeNumberOfLinesAnalysis.get_top_x_files_report self
       project_key branch_name top_x = Err (IndexError "list index out of range").
Proof.
  intros Hq Hex.
  assert (Hfs : SonarQubeFacade.get_file_sizes
                  (SonarQubeNumberOfLinesAnalysis.client self) project_key branch_name
                = Err (IndexError "list index out of range")).
  { unfold SonarQubeFacade.get_file_sizes. unfold leaves_query in Hq.
    rewrite Hq; simpl. now apply file_results_index_error. }
  split; [exact Hfs |].
  unfold SonarQubeNumberOfLinesAnalysis.get_top_x_files_report. now rewrite Hfs.
Qed.

Lemma file_without_measure_fails_witness :
  SonarQubeFacade.get_file_sizes (facade_of (serving scenario partly_measured_trees))
    "A" "main" = Err (IndexError "list index out of range")
  /\ SonarQubeNumberOfLinesAnalysis.get_top_x_files_report
       (analysis_of (serving scenario partly_measured_trees)) "A" "main" 1
     = Err (IndexError "list index out of range").
Proof.
  apply (file_without_measure_fails (analysis_of (serving scenario partly_measured_trees))
           "A" "main"
           [ {| path := "x.py"; measures := [ncloc "80"] |};
             {| path := "y.py"; measures := [ncloc "60"] |};
             {| path := "empty.py"; measures := [] |} ] 1).
  - reflexivity.
  - apply Exists_cons_tl, Exists_cons_tl, Exists_cons_hd. reflexivity.
Defined.

Section FirstFailure.
Import SonarQubeNumberOfLinesAnalysis.
Variable self : SonarQubeNumberOfLinesAnalysis.t.

Lemma branch_exposed_loc (project : string) (b : string * Z) :
  branch_exposed (client self) project b ->
  branch_loc (client self) project (fst b) = Ok (snd b).
Proof.
  intros [v [Hv Hn]]. unfold branch_loc. rewrite Hv. exact Hn.
Qed.

Lemma append_branches_app (project : string) (seen : list (string * Z))
    (bs : list string) (acc : list BranchResult.t) :
  Forall (branch_exposed (client self) project) seen ->
  append_branches self project (map fst seen ++ bs) acc
  = append_branches self project bs
      (acc ++ map (fun b => BranchResult.mk (snd b) project (fst b)) seen).
Proof.
  intros H; revert acc. induction H as [|b seen [v [Hv Hn]] _ IH]; intros acc; simpl.
  - now rewrite app_nil_r.
  - rewrite Hv; simpl. rewrite Hn; simpl. rewrite IH, <- app_assoc. reflexivity.
Qed.

Lemma append_projects_app (seen : loc_table) (keys : list string)
    (acc : list BranchResult.t) :
  Forall (project_exposed (client self)) seen ->
  append_projects self (map fst seen ++ keys) acc
  = append_projects self keys (acc ++ discovered seen).
Proof.
  intros H; revert acc. induction H as [|p seen [Hbr Hbs] _ IH]; intros acc; simpl.
  - now rewrite app_nil_r.
  - rewrite Hbr; simpl. rewrite (append_branches_ok self _ _ _ Hbs); simpl.
    rewrite IH, <- app_assoc. reflexivity.
Qed.

Lemma add_projects_app (seen : loc_table) (keys : list string) (total : Z) :
  Forall (project_exposed (client self)) seen ->
  Forall (fun p => snd p <> []) seen ->
  add_projects self (map fst seen ++ keys) total
  = add_projects self keys (total + sum_of_maxima seen).
Proof.
  intros H; revert total. induction H as [|p seen [Hbr Hbs] _ IH]; intros total Hne.
  - simpl. f_equal. unfold sum_of_maxima; simpl. lia.
  - inversion Hne as [|? ? Hp Hrest]; subst. simpl.
    rewrite Hbr; simpl. rewrite (branch_sizes_ok self _ _ Hbs); simpl.
    rewrite py_max_largest by (destruct (snd p); [congruence | discriminate]).
    simpl. rewrite (IH _ Hrest). f_equal. rewrite sum_of_maxima_cons. lia.
Qed.

Lemma branch_sizes_first_error (project : string) (seen : list (string * Z))
    (branch : string) (later : list string) (e : exn) :
  Forall (branch_exposed (client self) project) seen ->
  branch_loc (client self) project branch = Err e ->
  comprehension
    (fun branch =>
       code_lines <- SonarQubeFacade.get_branch_size (client self) project branch ;;
       py_int code_lines)
    (map fst seen ++ branch :: later)
  = Err e.
Proof.
  intros H He. induction H as [|b seen Hb _ IH]; simpl.
  - unfold branch_loc in He. now rewrite He.
  - apply branch_exposed_loc in Hb. unfold branch_loc in Hb. rewrite Hb; simpl.
    now rewrite IH.
Qed.

Lemma append_branches_error (project branch : string) (later : list string)
    (acc : list BranchResult.t) (e : exn) :
  branch_loc (client self) project branch = Err e ->
  append_branches self project (branch :: later) acc = Err e.
Proof.
  unfold branch_loc. intros He. simpl.
  destruct (SonarQubeFacade.get_branch_size (client self) project branch) as [v|e'];
    simpl in *; [now rewrite He | now injection He as ->].
Qed.
End FirstFailure.

(** X3: when the branch listing of a project raises after the projects
    before it were read, [get_branch_size_report] raises the same exception,
    and so does [get_total_size] when the projects before it have branches:
    no partial report or total is returned. *)
Theorem branch_listing_failure_propagates
    (self : SonarQubeNumberOfLinesAnalysis.t) (seen : loc_table) (project : string)
    (later : list string) (e : exn) :
  SonarQubeFacade.get_project_keys (SonarQubeNumberOfLinesAnalysis.client self)
  = Ok (map fst seen ++ project :: later) ->
  Forall (project_exposed (SonarQubeNumberOfLinesAnalysis.client self)) seen ->
  SonarQubeFacade.get_branches (SonarQubeNumberOfLinesAnalysis.client self) project
  = Err e ->
  SonarQubeNumberOfLinesAnalysis.get_branch_size_report self = Err e
  /\ (Forall (fun p => snd p <> []) seen ->
      SonarQubeNumberOfLinesAnalysis.get_total_size self = Err e).
Proof.
  intros Hkeys Hseen Hbr. split.
  - unfold SonarQubeNumberOfLinesAnalysis.get_branch_size_report.
    rewrite Hkeys; simpl. rewrite (append_projects_app self seen _ _ Hseen).
    simpl. now rewrite Hbr.
  - intros Hne. unfold SonarQubeNumberOfLinesAnalysis.get_total_size.
    rewrite Hkeys; simpl. rewrite (add_projects_app self seen _ _ Hseen Hne).
    simpl. now rewrite Hbr.
Qed.

Lemma branch_listing_failure_propagates_witness :
  SonarQubeNumberOfLinesAnalysis.get_branch_size_report (analysis_of refusing_branches)
  = Err (Raised "AuthError")
  /\ (Forall (fun p : string * list (string * Z) => snd p <> [])
        [("A", [("main", 100); ("feature", 150)])] ->
      SonarQubeNumberOfLinesAnalysis.get_total_size (analysis_of refusing_branches)
      = Err (Raised "AuthError")).
Proof.
  apply (branch_listing_failure_propagates (analysis_of refusing_branches)
           [("A", [("main", 100); ("feature", 150)])] "B" []).
  - reflexivity.
  - apply Forall_cons; [| apply Forall_nil].
    split; [reflexivity |].
    repeat (apply Forall_cons || apply Forall_nil);
      eapply ncloc_branch_exposed; reflexivity.
  - reflexivity.
Defined.

(** X4: when the size of a branch cannot be had as an integer, because the
    query raises or because [int] rejects the value, after the projects and
    branches before it were read, [get_branch_size_report] and
    [get_total_size] raise that exception. *)
Theorem branch_size_failure_propagates
    (self : SonarQubeNumberOfLinesAnalysis.t) (seen : loc_table) (project : string)
    (later : list string) (seen_branches : list (string * Z)) (branch : string)
    (later_branches : list string) (e : exn) :
  SonarQubeFacade.get_project_keys (SonarQubeNumberOfLinesAnalysis.client self)
  = Ok (map fst seen ++ project :: later) ->
  Forall (project_exposed (SonarQubeNumberOfLinesAnalysis.client self)) seen ->
  SonarQubeFacade.get_branches (SonarQubeNumberOfLinesAnalysis.client self) project
  = Ok (map fst seen_branches ++ branch :: later_branches) ->
  Forall (branch_exposed (SonarQubeNumberOfLinesAnalysis.client self) project)
    seen_branches ->
  branch_loc (SonarQubeNumberOfLinesAnalysis.client self) project branch = Err e ->
  SonarQubeNumberOfLinesAnalysis.get_branch_size_report self = Err e
  /\ (Forall (fun p => snd p <> []) seen ->
      SonarQubeNumberOfLinesAnalysis.get_total_size self = Err e).
Proof.
  intros Hkeys Hseen Hbr Hbs He. split.
  - unfold SonarQubeNumberOfLinesAnalysis.get_branch_size_report.
    rewrite Hkeys; simpl. rewrite (append_projects_app self seen _ _ Hseen).
    simpl. rewrite Hbr; simpl.
    rewrite (append_branches_app self project seen_branches _ _ Hbs).
    now rewrite (append_branches_error self project branch later_branches _ e He).
  - intros Hne. unfold SonarQubeNumberOfLinesAnalysis.get_total_size.
    rewrite Hkeys; simpl. rewrite (add_projects_app self seen _ _ Hseen Hne).
    simpl. rewrite Hbr; simpl.
    now rewrite (branch_sizes_first_error self project seen_branches branch
                   later_branches e Hbs He).
Qed.

Lemma branch_size_failure_propagates_witness :
  SonarQubeNumberOfLinesAnalysis.get_branch_size_report (analysis_of (serving garbled []))
  = Err (ValueError "invalid literal for int() with base 10")
  /\ (Forall (fun p : string * list (string * Z) => snd p <> []) [] ->
      SonarQubeNumberOfLinesAnalysis.get_total_size (analysis_of (serving garbled []))
      = Err (ValueError "invalid literal for int() with base 10")).
Proof.
  apply (branch_size_failure_propagates (analysis_of (serving garbled []))
           [] "A" ["B"] [("main", 100)] "dev" []).
  - reflexivity.
  - constructor.
  - reflexivity.
  - repeat constructor. eapply ncloc_branch_exposed; reflexivity.
  - reflexivity.
Defined.

(** ** The total and the rows of the report *)

Lemma fold_max_bounds (x : Z) (rest : list Z) :
  0 <= x -> Forall (fun y => 0 <= y) rest ->
  x <= fold_right Z.max x rest <= x + fold_right Z.add 0 rest.
Proof.
  intros Hx H. induction H as [|y rest Hy _ IH]; simpl; lia.
Qed.

Lemma largest_le_sum (locs : list Z) :
  Forall (fun y => 0 <= y) locs -> 0 <= largest locs <= fold_right Z.add 0 locs.
Proof.
  destruct locs as [|x rest]; intros H; simpl; [lia |].
  inversion H as [|? ? Hx Hrest]; subst.
  pose proof (fold_max_bounds x rest Hx Hrest). lia.
Qed.

Lemma sum_of_branches_cons (p : string * list (string * Z)) (t : loc_table) :
  sum_of_branches (p :: t) = fold_right Z.add 0 (map snd (snd p)) + sum_of_branches t.
Proof.
  unfold sum_of_branches, discovered. simpl. rewrite map_app, map_map. simpl.
  fold (discovered t). generalize (map BranchResult.number_of_lines (discovered t)).
  intros tail. induction (snd p) as [|b bs IH]; simpl; [reflexivity | lia].
Qed.

Lemma sum_of_maxima_bounds (table : loc_table) :
  Forall (fun p => snd p <> []) table ->
  Forall (fun p => Forall (fun b => 0 <= snd b) (snd p)) table ->
  0 <= sum_of_maxima table <= sum_of_branches table
  /\ Forall (fun r => BranchResult.number_of_lines r <= sum_of_maxima table)
       (discovered table).
Proof.
  induction table as [|p table IH]; intros Hne Hpos.
  - split; [unfold sum_of_maxima, sum_of_branches; simpl; lia | constructor].
  - inversion Hne as [|? ? Hp Hne']; inversion Hpos as [|? ? Hb Hpos']; subst.
    destruct (IH Hne' Hpos') as [Hsum Hall].
    assert (Hlocs : Forall (fun y => 0 <= y) (map snd (snd p)))
      by (apply Forall_map; exact Hb).
    pose proof (largest_le_sum _ Hlocs) as Hl.
    assert (Hmax : Forall (fun n => n <= largest (map snd (snd p))) (map snd (snd p))).
    { apply largest_is_maximum. destruct (snd p); [congruence | discriminate]. }
    rewrite sum_of_maxima_cons, sum_of_branches_cons. split; [lia |].
    unfold discovered; simpl. apply Forall_app. split.
    + apply Forall_map. rewrite Forall_map in Hmax.
      eapply Forall_impl; [| exact Hmax]. simpl. intros b Hle. lia.
    + eapply Forall_impl; [| exact Hall]. simpl. intros r Hle. lia.
Qed.

(** X5: when every project has a branch and no LOC is negative, the total
    size is at least the LOC of every branch of the report and at most the
    sum of the LOC of all its rows. *)
Theorem total_size_bounds (self : SonarQubeNumberOfLinesAnalysis.t) (table : loc_table) :
  exposes (SonarQubeNumberOfLinesAnalysis.client self) table ->
  Forall (fun p => snd p <> []) table ->
  Forall (fun p => Forall (fun b => 0 <= snd b) (snd p)) table ->
  exists total,
    SonarQubeNumberOfLinesAnalysis.get_total_size self = Ok total
    /\ Forall (fun r => BranchResult.number_of_lines r <= total) (discovered table)
    /\ total <= fold_right Z.add 0 (map BranchResult.number_of_lines (discovered table)).
Proof.
  intros Hex Hne Hpos. exists (sum_of_maxima table).
  destruct (sum_of_maxima_bounds table Hne Hpos) as [Hsum Hall].
  split; [| split; [exact Hall | apply Hsum]].
  destruct Hex as [Hkeys Hex].
  unfold SonarQubeNumberOfLinesAnalysis.get_total_size.
  rewrite Hkeys; simpl. now rewrite (add_projects_ok self table 0 Hex Hne).
Qed.

Lemma total_size_bounds_witness :
  exists total,
    SonarQubeNumberOfLinesAnalysis.get_total_size (analysis_of (serving tied [])) = Ok total
    /\ Forall (fun r => BranchResult.number_of_lines r <= total) (discovered tied_table)
    /\ total <= fold_right Z.add 0
                  (map BranchResult.number_of_lines (discovered tied_table)).
Proof.
  apply (total_size_bounds (analysis_of (serving tied [])) tied_table).
  - exact tied_exposed.
  - repeat constructor; discriminate.
  - repeat constructor; simpl; lia.
Defined.

(** X6: when the gateway returns at least one branch, the first data row of
    the branch report is a branch of the largest LOC of the whole instance,
    and among the branches of that LOC the one discovered first. *)
Theorem first_row_is_largest (self : SonarQubeNumberOfLinesAnalysis.t) (table : loc_table) :
  exposes (SonarQubeNumberOfLinesAnalysis.client self) table ->
  discovered table <> [] ->
  exists first others,
    SonarQubeNumberOfLinesAnalysis.get_branch_size_report self
    = Ok (SonarQubeNumberOfLinesAnalysis.branch_report_header
          ++ SonarQubeNumberOfLinesAnalysis.branch_row first
          ++ lines_of SonarQubeNumberOfLinesAnalysis.branch_row others)%string
    /\ Forall (fun r => BranchResult.number_of_lines r
                        <= BranchResult.number_of_lines first) (discovered table)
    /\ hd_error (filter (fun r => BranchResult.number_of_lines r
                                  =? BranchResult.number_of_lines first)
                   (discovered table)) = Some first.
Proof.
  intros Hex Hne.
  pose proof (get_branch_size_report_ok self table Hex) as Hrep.
  pose proof (sorted_reverse_perm BranchResult.number_of_lines (discovered table)) as Hperm.
  pose proof (sorted_reverse_sorted BranchResult.number_of_lines (discovered table)) as Hs.
  pose proof (sorted_reverse_stable BranchResult.number_of_lines) as Hst.
  destruct (sorted_reverse BranchResult.number_of_lines (discovered table))
    as [|first others] eqn:Hrows.
  - apply Permutation_sym, Permutation_nil in Hperm. contradiction.
  - exists first, others. split; [| split].
    + rewrite Hrep, lines_of_cons. reflexivity.
    + apply StronglySorted_inv in Hs. destruct Hs as [_ Hall].
      apply Forall_forall. intros r Hr.
      apply (Permutation_in _ Hperm) in Hr. destruct Hr as [<- | Hr]; [lia |].
      rewrite Forall_forall in Hall. apply (Hall r Hr).
    + specialize (Hst (BranchResult.number_of_lines first) (discovered table)).
      rewrite Hrows in Hst. rewrite <- Hst. simpl. now rewrite Z.eqb_refl.
Qed.

Lemma first_row_is_largest_witness :
  exists first others,
    SonarQubeNumberOfLinesAnalysis.get_branch_size_report (analysis_of (serving tied []))
    = Ok (SonarQubeNumberOfLinesAnalysis.branch_report_header
          ++ SonarQubeNumberOfLinesAnalysis.branch_row first
          ++ lines_of SonarQubeNumberOfLinesAnalysis.branch_row others)%string
    /\ Forall (fun r => BranchResult.number_of_lines r
                        <= BranchResult.number_of_lines first) (discovered tied_table)
    /\ hd_error (filter (fun r => BranchResult.number_of_lines r
                                  =? BranchResult.number_of_lines first)
                   (discovered tied_table)) = Some first.
Proof.
  apply (first_row_is_largest (analysis_of (serving tied [])) tied_table).
  - exact tied_exposed.
  - discriminate.
Defined.

Lemma sorted_reverse_of_sorted {A : Type} (key : A -> Z) (l : list A) :
  StronglySorted (key_ge key) l -> sorted_reverse key l = l.
Proof.
  induction 1 as [|x l _ IH Hx]; simpl; [reflexivity |].
  rewrite IH. destruct l as [|y l]; simpl; [reflexivity |].
  inversion Hx as [|? ? Hy _]; subst. unfold key_ge in Hy.
  destruct (Z.ltb_spec (key x) (key y)); [lia | reflexivity].
Qed.

(** X7: when the branches are discovered in descending order of their LOC,
    the report lists them in exactly the order of discovery. *)
Theorem sorted_discovery_kept (self : SonarQubeNumberOfLinesAnalysis.t) (table : loc_table) :
  exposes (SonarQubeNumberOfLinesAnalysis.client self) table ->
  StronglySorted (key_ge BranchResult.number_of_lines) (discovered table) ->
  SonarQubeNumberOfLinesAnalysis.get_branch_size_report self
  = Ok (SonarQubeNumberOfLinesAnalysis.branch_report_header
        ++ lines_of SonarQubeNumberOfLinesAnalysis.branch_row (discovered table))%string.
Proof.
  intros Hex Hs. rewrite (get_branch_size_report_ok self table Hex).
  now rewrite sorted_reverse_of_sorted.
Qed.

Lemma sorted_discovery_kept_witness :
  SonarQubeNumberOfLinesAnalysis.get_branch_size_report
    (analysis_of (serving unmeasured []))
  = Ok (SonarQubeNumberOfLinesAnalysis.branch_report_header
        ++ lines_of SonarQubeNumberOfLinesAnalysis.branch_row
             (discovered unmeasured_table))%string.
Proof.
  apply (sorted_discovery_kept (analysis_of (serving unmeasured [])) unmeasured_table).
  - exact unmeasured_exposed.
  - repeat constructor; unfold key_ge; simpl; lia.
Defined.

(** X8: for bounds 0 <= m <= n the top files report for [m] is a leading part
    of the report for [n]: a larger bound only adds rows at the end. *)
Theorem top_files_report_grows
    (self : SonarQubeNumberOfLinesAnalysis.t) (project_key branch_name : string)
    (files : list Result.t) (m n : Z) :
  SonarQubeFacade.get_file_sizes (SonarQubeNumberOfLinesAnalysis.client self)
    project_key branch_name = Ok files ->
  0 <= m <= n ->
  exists shorter more,
    SonarQubeNumberOfLinesAnalysis.get_top_x_files_report self project_key branch_name m
    = Ok shorter
    /\ SonarQubeNumberOfLinesAnalysis.get_top_x_files_report self project_key branch_name n
       = Ok (shorter ++ more)%string.
Proof.
  intros Hfiles Hmn.
  rewrite !(get_top_x_files_report_ok self project_key branch_name _ files Hfiles).
  rewrite !slice_to_nonneg by lia.
  eexists. exists (lines_of (SonarQubeNumberOfLinesAnalysis.file_row project_key branch_name)
                     (firstn (Z.to_nat n - Z.to_nat m) (skipn (Z.to_nat m) files))).
  split; [reflexivity |].
  rewrite append_assoc, <- lines_of_app. do 3 f_equal.
  rewrite <- (firstn_skipn (Z.to_nat m) files) at 1.
  rewrite firstn_app, length_firstn.
  destruct (Nat.le_ge_cases (Z.to_nat m) (length files)) as [Hle | Hge].
  - rewrite Nat.min_l by exact Hle. f_equal.
    apply firstn_all2. rewrite length_firstn. lia.
  - rewrite Nat.min_r by exact Hge.
    rewrite (skipn_all2 files Hge), !firstn_nil, !app_nil_r.
    rewrite firstn_firstn. f_equal. lia.
Qed.

Lemma top_files_report_grows_witness :
  exists shorter more,
    SonarQubeNumberOfLinesAnalysis.get_top_x_files_report
      (analysis_of (serving scenario scenario_trees)) "A" "main" 1 = Ok shorter
    /\ SonarQubeNumberOfLinesAnalysis.get_top_x_files_report
         (analysis_of (serving scenario scenario_trees)) "A" "main" 2
       = Ok (shorter ++ more)%string.
Proof.
  apply (top_files_report_grows (analysis_of (serving scenario scenario_trees))
           "A" "main"
           [Result.mk (PyStr "80") "x.py"; Result.mk (PyStr "60") "y.py";
            Result.mk (PyStr "10") "z.py"] 1 2).
  - reflexivity.
  - lia.
Defined.

(** ** The lines of the report *)

Lemma occurrences_app (ch : ascii) (a b : string) :
  occurrences ch (a ++ b) = (occurrences ch a + occurrences ch b)%nat.
Proof.
  induction a as [|c a IH]; simpl; [reflexivity | rewrite IH; lia].
Qed.

Lemma uint_has_no (ch : ascii) (d : Decimal.uint) :
  digit_of ch = None -> occurrences ch (NilEmpty.string_of_uint d) = 0%nat.
Proof.
  intros Hch.
  induction d; cbn [NilEmpty.string_of_uint occurrences]; try reflexivity;
    match goal with
    | |- ((if Ascii.eqb ?c ch then _ else _) + _)%nat = _ =>
        destruct (Ascii.eqb_spec c ch) as [<- | _]; [discriminate Hch | exact IHd]
    end.
Qed.

(** The decimal text of an integer has digits and at most a minus sign. *)
Lemma str_of_int_has_no (ch : ascii) (n : Z) :
  digit_of ch = None -> Ascii.eqb "-" ch = false ->
  occurrences ch (str_of_int n) = 0%nat.
Proof.
  intros Hch Hminus. unfold str_of_int.
  assert (Hz : forall d, occurrences ch (NilZero.string_of_uint d) = 0%nat).
  { intros d. destruct d; try apply (uint_has_no ch _ Hch).
    cbn [NilZero.string_of_uint occurrences].
    destruct (Ascii.eqb_spec "0" ch) as [<- | _]; [discriminate Hch | reflexivity]. }
  destruct n as [|p|p]; simpl Z.to_int; cbn [NilZero.string_of_int].
  - exact (Hz (Decimal.D0 Decimal.Nil)).
  - apply Hz.
  - cbn [occurrences]. rewrite Hminus. apply Hz.
Qed.

Lemma lines_of_occurrences {A : Type} (ch : ascii) (row : A -> string) (items : list A) :
  Forall (fun x => occurrences ch (row x) = 1%nat) items ->
  occurrences ch (lines_of row items) = length items.
Proof.
  induction 1 as [|x items Hx _ IH]; [reflexivity |].
  rewrite lines_of_cons, occurrences_app, Hx, IH. reflexivity.
Qed.

(** X9: when no project key and no branch name contains a newline, the
    branch report has one line per (project, branch) pair after the header
    line: the text has as many newline characters as pairs, and one more. *)
Theorem branch_report_line_count
    (self : SonarQubeNumberOfLinesAnalysis.t) (table : loc_table) :
  exposes (SonarQubeNumberOfLinesAnalysis.client self) table ->
  Forall (fun pb => occurrences (ascii_of_nat 10) (fst pb) = 0%nat
                    /\ occurrences (ascii_of_nat 10) (snd pb) = 0%nat) (pairs table) ->
  exists text,
    SonarQubeNumberOfLinesAnalysis.get_branch_size_report self = Ok text
    /\ occurrences (ascii_of_nat 10) text = S (length (pairs table)).
Proof.
  intros Hex Hclean.
  rewrite (get_branch_size_report_ok self table Hex). eexists. split; [reflexivity |].
  rewrite occurrences_app.
  change (occurrences (ascii_of_nat 10)
            SonarQubeNumberOfLinesAnalysis.branch_report_header) with 1%nat.
  rewrite lines_of_occurrences.
  - rewrite <- (Permutation_length (sorted_reverse_perm _ (discovered table))).
    rewrite <- discovered_pairs, length_map. reflexivity.
  - apply (Permutation_Forall (sorted_reverse_perm _ (discovered table))).
    rewrite <- discovered_pairs, Forall_map in Hclean.
    eapply Forall_impl; [| exact Hclean]. simpl. intros r [Hid Hbr].
    unfold SonarQubeNumberOfLinesAnalysis.branch_row.
    rewrite !occurrences_app, Hid, Hbr.
    rewrite str_of_int_has_no by reflexivity. reflexivity.
Qed.

Lemma branch_report_line_count_witness :
  exists text,
    SonarQubeNumberOfLinesAnalysis.get_branch_size_report
      (analysis_of (serving scenario scenario_trees)) = Ok text
    /\ occurrences (ascii_of_nat 10) text = 4%nat.
Proof.
  apply (branch_report_line_count (analysis_of (serving scenario scenario_trees))
           scenario_table).
  - exact scenario_exposed.
  - repeat constructor.
Defined.

(** ** Printing and writing *)

Lemma io_bind_ok {A B : Type} (m : io A) (k : A -> io B) (w w' : world) (a : A) :
  m w = (w', Ok a) -> io_bind m k w = k a w'.
Proof. intros H. unfold io_bind. now rewrite H. Qed.

Lemma io_bind_err {A B : Type} (m : io A) (k : A -> io B) (w w' : world) (e : exn) :
  m w = (w', Err e) -> io_bind m k w = (w', Err e).
Proof. intros H. unfold io_bind. now rewrite H. Qed.

(** X10: [print_in_file_branch_size_report] is all or nothing.  When the
    report cannot be built, the exception leaves and neither the file nor
    standard output has changed.  When it can, the report file holds exactly
    the report text whatever it held before, every other file is as it was,
    and the one line [Report written to file branch_size_report.csv] has
    been printed. *)
Theorem print_in_file_all_or_nothing (self : SonarQubeNumberOfLinesAnalysis.t) (w : world) :
  (forall e,
      SonarQubeNumberOfLinesAnalysis.get_branch_size_report self = Err e ->
      print_in_file_branch_size_report self w = (w, Err e))
  /\ (forall text,
      SonarQubeNumberOfLinesAnalysis.get_branch_size_report self = Ok text ->
      snd (print_in_file_branch_size_report self w) = Ok tt
      /\ files (fst (print_in_file_branch_size_report self w)) "branch_size_report.csv"
         = Some text
      /\ (forall p, p <> "branch_size_report.csv" ->
            files (fst (print_in_file_branch_size_report self w)) p = files w p)
      /\ stdout (fst (print_in_file_branch_size_report self w))
         = (stdout w ++ "Report written to file branch_size_report.csv" ++ newline)%string).
Proof.
  unfold print_in_file_branch_size_report, io_bind, eval. split.
  - intros e He. now rewrite He.
  - intros text Ht. rewrite Ht. simpl. repeat split.
    intros p Hp.
    destruct (String.eqb_spec p SonarQubeNumberOfLinesAnalysis.REPORT_FILE_PATH);
      [contradiction | reflexivity].
Qed.

Lemma print_in_file_all_or_nothing_witness :
  print_in_file_branch_size_report (analysis_of (serving garbled [])) old_world
  = (old_world, Err (ValueError "invalid literal for int() with base 10"))
  /\ files (fst (print_in_file_branch_size_report
                   (analysis_of (serving scenario scenario_trees)) old_world)) "notes.txt"
     = Some "keep".
Proof.
  split.
  - apply (proj1 (print_in_file_all_or_nothing (analysis_of (serving garbled []))
                    old_world)).
    reflexivity.
  - destruct (proj2 (print_in_file_all_or_nothing
                       (analysis_of (serving scenario scenario_trees)) old_world)
                _ scenario_branch_report) as [_ [_ [Hother _]]].
    rewrite Hother; [reflexivity | discriminate].
Defined.

Lemma spares_eval {A : Type} (r : result A) : writes_no_file (eval r).
Proof.
  intros w. simpl. split; [reflexivity | exists EmptyString; now rewrite append_empty_r].
Qed.

Lemma spares_skip : writes_no_file skip.
Proof.
  intros w. simpl. split; [reflexivity | exists EmptyString; now rewrite append_empty_r].
Qed.

Lemma spares_print (text : string) : writes_no_file (print text).
Proof.
  intros w. simpl. split; [reflexivity | eexists; reflexivity].
Qed.

Lemma spares_write_report (text : string) :
  spares_other_files (write_file SonarQubeNumberOfLinesAnalysis.REPORT_FILE_PATH text).
Proof.
  intros w. simpl. split.
  - intros p Hp.
    destruct (String.eqb_spec p SonarQubeNumberOfLinesAnalysis.REPORT_FILE_PATH);
      [contradiction | reflexivity].
  - exists EmptyString; now rewrite append_empty_r.
Qed.

Lemma writes_no_file_spares {A : Type} (m : io A) :
  writes_no_file m -> spares_other_files m.
Proof.
  intros H w. destruct (H w) as [Hf Hout]. split; [intros p _; apply Hf | exact Hout].
Qed.

Lemma spares_bind {A B : Type} (m : io A) (k : A -> io B) :
  spares_other_files m -> (forall a, spares_other_files (k a)) ->
  spares_other_files (io_bind m k).
Proof.
  intros Hm Hk w. unfold io_bind. destruct (Hm w) as [Hf [out Hout]].
  destruct (m w) as [w' [a|e]]; simpl in *.
  - destruct (Hk a w') as [Hf' [out' Hout']]. split.
    + intros p Hp. rewrite (Hf' p Hp). now apply Hf.
    + exists (out ++ out')%string. now rewrite Hout', Hout, append_assoc.
  - split; [exact Hf | now exists out].
Qed.

Lemma writes_no_file_bind {A B : Type} (m : io A) (k : A -> io B) :
  writes_no_file m -> (forall a, writes_no_file (k a)) -> writes_no_file (io_bind m k).
Proof.
  intros Hm Hk w. unfold io_bind. destruct (Hm w) as [Hf [out Hout]].
  destruct (m w) as [w' [a|e]]; simpl in *.
  - destruct (Hk a w') as [Hf' [out' Hout']]. split.
    + intros p. rewrite (Hf' p). apply Hf.
    + exists (out ++ out')%string. now rewrite Hout', Hout, append_assoc.
  - split; [exact Hf | now exists out].
Qed.

Lemma total_stage_writes_no_file (analysis : SonarQubeNumberOfLinesAnalysis.t) :
  writes_no_file (Script.get_total_size analysis).
Proof.
  apply writes_no_file_bind; [apply spares_eval | intros total; apply spares_print].
Qed.

Lemma top_x_stage_writes_no_file (spec : string)
    (analysis : SonarQubeNumberOfLinesAnalysis.t) :
  writes_no_file (Script.top_x_files_stage spec analysis).
Proof.
  apply writes_no_file_bind; [apply spares_eval |].
  intros [[project_key branch_name] top_x].
  apply writes_no_file_bind; [apply spares_eval |].
  intros n. apply writes_no_file_bind; [apply spares_eval | intros r; apply spares_print].
Qed.

(** X11: whatever the arguments and the answers of the server, also when it
    ends with an exception, [main] only adds to standard output and leaves
    every file other than [branch_size_report.csv] as it was; without
    [--branch-size] it leaves every file as it was. *)
Theorem main_spares_other_files
    (new_client : string -> option string -> SonarQubeClient) (env : environ)
    (args : Script.Namespace) :
  spares_other_files (Script.main new_client env args)
  /\ (Script.branch_size args = false ->
      writes_no_file (Script.main new_client env args)).
Proof.
  assert (Hlast : forall analysis,
             writes_no_file
               (if Script.truthy (Script.top_x_files args)
                then match Script.top_x_files args with
                     | Some spec => Script.top_x_files_stage spec analysis
                     | None => skip
                     end
                else skip)).
  { intros analysis. destruct (Script.truthy (Script.top_x_files args));
      [| apply spares_skip].
    destruct (Script.top_x_files args);
      [apply top_x_stage_writes_no_file | apply spares_skip]. }
  assert (Htotal : forall analysis,
             writes_no_file
               (if Script.total_size args then Script.get_total_size analysis else skip)).
  { intros analysis. destruct (Script.total_size args);
      [apply total_stage_writes_no_file | apply spares_skip]. }
  unfold Script.main. split.
  - apply spares_bind.
    + destruct (Script.branch_size args); [| apply writes_no_file_spares, spares_skip].
      unfold Script.branch_size_analysis, print_in_file_branch_size_report.
      apply spares_bind; [apply writes_no_file_spares, spares_eval |].
      intros report. apply spares_bind; [apply spares_write_report |].
      intros _. apply writes_no_file_spares, spares_print.
    + intros _. apply writes_no_file_spares.
      apply writes_no_file_bind; [apply Htotal | intros _; apply Hlast].
  - intros Hflag. rewrite Hflag.
    apply writes_no_file_bind; [apply spares_skip |].
    intros _. apply writes_no_file_bind; [apply Htotal | intros _; apply Hlast].
Qed.

Lemma main_spares_other_files_witness :
  writes_no_file
    (Script.main anonymous_access [] (example_args false true (Some "A,main,2"))).
Proof.
  apply (proj2 (main_spares_other_files anonymous_access []
                  (example_args false true (Some "A,main,2")))).
  reflexivity.
Defined.

(** ** The argument of --top-x-files *)

Lemma split_nonempty (sep : ascii) (s : string) : split sep s <> [].
Proof.
  destruct s as [|c s]; simpl; [discriminate |].
  destruct (Ascii.eqb c sep); [discriminate |].
  destruct (split sep s); discriminate.
Qed.

(** [split] gives one part more than there are separators. *)
Lemma split_length (sep : ascii) (s : string) :
  length (split sep s) = S (occurrences sep s).
Proof.
  induction s as [|c s IH]; simpl; [reflexivity |].
  destruct (Ascii.eqb c sep); simpl; [now rewrite IH |].
  destruct (split sep s) as [|part parts] eqn:Hs; simpl in *; [discriminate | exact IH].
Qed.

Lemma split_free (sep : ascii) (s : string) : free_of sep s = true -> split sep s = [s].
Proof.
  induction s as [|c s IH]; simpl; [reflexivity |].
  intros H. apply andb_prop in H. destruct H as [Hc Hs].
  destruct (Ascii.eqb c sep); [discriminate |]. now rewrite (IH Hs).
Qed.

Lemma split_app (sep : ascii) (a b : string) :
  free_of sep a = true -> split sep (a ++ String sep b) = a :: split sep b.
Proof.
  induction a as [|c a IH]; simpl.
  - intros _. now rewrite Ascii.eqb_refl.
  - intros H. apply andb_prop in H. destruct H as [Hc Ha].
    destruct (Ascii.eqb c sep); [discriminate |]. now rewrite (IH Ha).
Qed.

(** [split] undoes [join] when no part contains the separator. *)
Lemma split_join (sep : ascii) (parts : list string) :
  parts <> [] -> Forall (fun part => free_of sep part = true) parts ->
  split sep (join sep parts) = parts.
Proof.
  intros Hne H. induction H as [|part parts Hp Hrest IH]; [congruence |].
  destruct parts as [|next parts].
  - simpl. now apply split_free.
  - change (join sep (part :: next :: parts))
      with (part ++ String sep (join sep (next :: parts)))%string.
    rewrite (split_app sep _ _ Hp), IH by discriminate. reflexivity.
Qed.

Lemma free_of_occurrences (ch : ascii) (s : string) :
  occurrences ch s = 0%nat -> free_of ch s = true.
Proof.
  induction s as [|c s IH]; simpl; [reflexivity |].
  destruct (Ascii.eqb c ch); simpl; [discriminate | exact IH].
Qed.

Lemma unpack3_wrong_length (parts : list string) :
  length parts <> 3%nat -> exists msg, unpack3 parts = Err (ValueError msg).
Proof.
  intros H. destruct parts as [|a [|b [|c [|d parts]]]]; simpl in *;
    try (eexists; reflexivity). congruence.
Qed.

Lemma io_bind_always_fails {A B : Type} (m : io A) (k : A -> io B) (w : world) :
  (forall a w', exists e, snd (k a w') = Err e) ->
  exists e, snd (io_bind m k w) = Err e.
Proof.
  intros Hk. unfold io_bind. destruct (m w) as [w' [a|e]]; [apply Hk |].
  exists e. reflexivity.
Qed.

(** X12: when the argument of [--top-x-files] is not empty and does not have
    exactly two commas, [main] ends with an exception whatever the server
    answers; when no other report is asked for, the exception is the
    ValueError of the unpacking and nothing has been printed or written. *)
Theorem top_x_files_needs_three_parts
    (new_client : string -> option string -> SonarQubeClient) (env : environ)
    (args : Script.Namespace) (spec : string) (w : world) :
  Script.top_x_files args = Some spec ->
  spec <> EmptyString ->
  occurrences "," spec <> 2%nat ->
  (exists e, snd (Script.main new_client env args w) = Err e)
  /\ (Script.branch_size args = false -> Script.total_size args = false ->
      exists msg, Script.main new_client env args w = (w, Err (ValueError msg))).
Proof.
  intros Hspec Hne Hcommas.
  assert (Hlen : length (split "," spec) <> 3%nat) by (rewrite split_length; lia).
  destruct (unpack3_wrong_length _ Hlen) as [msg Hmsg].
  assert (Htruthy : Script.truthy (Script.top_x_files args) = true).
  { rewrite Hspec. simpl. destruct (String.eqb_spec spec EmptyString);
      [contradiction | reflexivity]. }
  assert (Hstage : forall analysis w',
             Script.top_x_files_stage spec analysis w' = (w', Err (ValueError msg))).
  { intros analysis w'. unfold Script.top_x_files_stage, io_bind, eval.
    now rewrite Hmsg. }
  unfold Script.main. rewrite Htruthy, Hspec. split.
  - apply io_bind_always_fails. intros _ w1.
    apply io_bind_always_fails. intros _ w2.
    rewrite Hstage. eexists; reflexivity.
  - intros Hb Ht. rewrite Hb, Ht. exists msg.
    unfold io_bind at 1 2. simpl. apply Hstage.
Qed.

Lemma top_x_files_needs_three_parts_witness :
  (exists e,
      snd (Script.main anonymous_access [] (example_args true true (Some "A,main"))
             old_world) = Err e)
  /\ (exists msg,
        Script.main anonymous_access [] (example_args false false (Some "A,feature,x,3"))
          old_world = (old_world, Err (ValueError msg))).
Proof.
  split.
  - apply (proj1 (top_x_files_needs_three_parts anonymous_access []
                    (example_args true true (Some "A,main")) "A,main" old_world
                    eq_refl ltac:(discriminate) ltac:(discriminate))).
  - apply (proj2 (top_x_files_needs_three_parts anonymous_access []
                    (example_args false false (Some "A,feature,x,3")) "A,feature,x,3"
                    old_world eq_refl ltac:(discriminate) ltac:(discriminate)));
      reflexivity.
Defined.

(** X13: when the argument of [--top-x-files] is a project key, a branch name
    and the decimal text of an integer joined by commas, and neither the key
    nor the name contains a comma, [main] prints the top files report of
    that project and branch with that integer as the bound. *)
Theorem top_x_files_argument_read
    (new_client : string -> option string -> SonarQubeClient) (env : environ)
    (args : Script.Namespace) (project_key branch_name : string) (top_x : Z) (w : world) :
  Script.top_x_files args = Some (join "," [project_key; branch_name; str_of_int top_x]) ->
  free_of "," project_key = true ->
  free_of "," branch_name = true ->
  Script.branch_size args = false ->
  Script.total_size args = false ->
  Script.main new_client env args w
  = print_to_console_top_x_files
      (_create_analysis new_client env (Script.sonarqube_url args)
         (Script.sonarqube_admin_token args))
      project_key branch_name top_x w.
Proof.
  intros Hspec Hp Hb Hbs Hts.
  assert (Hsplit : split "," (join "," [project_key; branch_name; str_of_int top_x])
                   = [project_key; branch_name; str_of_int top_x]).
  { apply split_join; [discriminate |].
    repeat constructor; try assumption.
    apply free_of_occurrences, str_of_int_has_no; reflexivity. }
  assert (Htruthy : Script.truthy (Script.top_x_files args) = true).
  { rewrite Hspec. simpl. destruct project_key; reflexivity. }
  unfold Script.main. rewrite Htruthy, Hspec, Hbs, Hts.
  unfold io_bind at 1 2. simpl fst.
  unfold Script.top_x_files_stage. rewrite Hsplit.
  unfold io_bind at 1, eval at 1, unpack3.
  unfold io_bind at 1, eval at 1, py_int. rewrite int_of_str_of_int.
  reflexivity.
Qed.

Lemma top_x_files_argument_read_witness :
  Script.main anonymous_access [] (example_args false false (Some "A,main,2")) old_world
  = print_to_console_top_x_files
      (_create_analysis anonymous_access [] "https://sonarqube.example" EmptyString)
      "A" "main" 2 old_world.
Proof.
  apply (top_x_files_argument_read anonymous_access []
           (example_args false false (Some "A,main,2")) "A" "main" 2 old_world);
    reflexivity.
Defined.

(** ** The order of the reports *)

(** X14: [main] stops at the first report that fails and keeps what the
    reports before it did.  When the branch report fails, nothing has been
    written or printed.  When the branch report succeeds and the total
    fails, as it does for a project without branches, the report file has
    been written and confirmed, no total has been printed and the top files
    report has not been started. *)
Theorem main_stops_at_first_failure
    (new_client : string -> option string -> SonarQubeClient) (env : environ)
    (args : Script.Namespace) (w : world) :
  let analysis :=
    _create_analysis new_client env (Script.sonarqube_url args)
      (Script.sonarqube_admin_token args) in
  Script.branch_size args = true ->
  (forall e,
      SonarQubeNumberOfLinesAnalysis.get_branch_size_report analysis = Err e ->
      Script.main new_client env args w = (w, Err e))
  /\ (forall text e,
      SonarQubeNumberOfLinesAnalysis.get_branch_size_report analysis = Ok text ->
      Script.total_size args = true ->
      SonarQubeNumberOfLinesAnalysis.get_total_size analysis = Err e ->
      Script.main new_client env args w
      = ({| stdout := (stdout w ++ "Report written to file branch_size_report.csv"
                         ++ newline)%string;
            files := fun p =>
              if String.eqb p "branch_size_report.csv" then Some text else files w p |},
         Err e)).
Proof.
  intros analysis Hflag. unfold Script.main. fold analysis. rewrite Hflag. split.
  - intros e He.
    unfold Script.branch_size_analysis, print_in_file_branch_size_report, io_bind, eval.
    now rewrite He.
  - intros text e Htext Htotal He. rewrite Htotal.
    unfold Script.branch_size_analysis, print_in_file_branch_size_report,
      Script.get_total_size, io_bind, eval.
    rewrite Htext, He. reflexivity.
Qed.

Lemma main_stops_at_first_failure_witness :
  Script.main (server_of garbled []) [] (example_args true true None) old_world
  = (old_world, Err (ValueError "invalid literal for int() with base 10"))
  /\ Script.main (server_of branchless []) [] (example_args true true (Some "A,main,2"))
       old_world
     = ({| stdout := (stdout old_world ++ "Report written to file branch_size_report.csv"
                        ++ newline)%string;
           files := fun p =>
             if String.eqb p "branch_size_report.csv"
             then Some ("Project, Branch, Number of lines of code" ++ newline
                        ++ "A, main, 100" ++ newline)%string
             else files old_world p |},
        Err (ValueError "max() arg is an empty sequence")).
Proof.
  split.
  - apply (proj1 (main_stops_at_first_failure (server_of garbled []) []
                    (example_args true true None) old_world eq_refl)).
    reflexivity.
  - apply (proj2 (main_stops_at_first_failure (server_of branchless []) []
                    (example_args true true (Some "A,main,2")) old_world eq_refl));
      reflexivity.
Defined.

(** ** The order of the listings *)

Lemma largest_perm (l1 l2 : list Z) : Permutation l1 l2 -> largest l1 = largest l2.
Proof.
  intros Hperm. destruct l1 as [|x l1].
  - apply Permutation_nil in Hperm. now subst.
  - assert (Hne2 : l2 <> []).
    { intros ->. apply Permutation_sym, Permutation_nil in Hperm. discriminate. }
    destruct (largest_is_maximum (x :: l1) ltac:(discriminate)) as [Hin1 Hall1].
    destruct (largest_is_maximum l2 Hne2) as [Hin2 Hall2].
    rewrite Forall_forall in Hall1, Hall2.
    pose proof (Hall2 _ (Permutation_in _ Hperm Hin1)).
    pose proof (Hall1 _ (Permutation_in _ (Permutation_sym Hperm) Hin2)).
    lia.
Qed.

Lemma sum_of_maxima_perm (t1 t2 : loc_table) :
  Permutation t1 t2 -> sum_of_maxima t1 = sum_of_maxima t2.
Proof.
  induction 1 as [| p t t' _ IH | p q t | t t' t'' _ IH1 _ IH2];
    rewrite ?sum_of_maxima_cons; try reflexivity; lia.
Qed.

Lemma sum_of_maxima_same_branches (t1 t2 : loc_table) :
  Forall2 same_branches t1 t2 -> sum_of_maxima t1 = sum_of_maxima t2.
Proof.
  induction 1 as [|p q t1 t2 [_ Hperm] _ IH]; [reflexivity |].
  rewrite !sum_of_maxima_cons, IH.
  now rewrite (largest_perm _ _ (Permutation_map snd Hperm)).
Qed.

(** X15: the total size does not depend on the order in which the server
    lists the projects or the branches of a project: two gateways that
    return the same projects with the same branches and LOC, in any order,
    give the same total. *)
Theorem total_size_ignores_listing_order
    (self1 self2 : SonarQubeNumberOfLinesAnalysis.t) (t1 t2 : loc_table) :
  exposes (SonarQubeNumberOfLinesAnalysis.client self1) t1 ->
  exposes (SonarQubeNumberOfLinesAnalysis.client self2) t2 ->
  Forall (fun p => snd p <> []) t1 ->
  same_projects t1 t2 ->
  exists total,
    SonarQubeNumberOfLinesAnalysis.get_total_size self1 = Ok total
    /\ SonarQubeNumberOfLinesAnalysis.get_total_size self2 = Ok total.
Proof.
  intros [Hk1 He1] [Hk2 He2] Hne1 [t [Hperm Hsame]].
  assert (Hne : Forall (fun p : string * list (string * Z) => snd p <> []) t)
    by (apply (Permutation_Forall Hperm Hne1)).
  assert (Hne2 : Forall (fun p : string * list (string * Z) => snd p <> []) t2).
  { clear - Hne Hsame. induction Hsame as [|p q ta tb [_ Hp] _ IH]; [constructor |].
    inversion Hne as [|? ? Hhd Htl]; subst. constructor; [| now apply IH].
    intros Hq. rewrite Hq in Hp. apply Permutation_sym, Permutation_nil in Hp.
    contradiction. }
  exists (sum_of_maxima t1). split.
  - unfold SonarQubeNumberOfLinesAnalysis.get_total_size. rewrite Hk1; simpl.
    now rewrite (add_projects_ok self1 t1 0 He1 Hne1).
  - unfold SonarQubeNumberOfLinesAnalysis.get_total_size. rewrite Hk2; simpl.
    rewrite (add_projects_ok self2 t2 0 He2 Hne2).
    rewrite (sum_of_maxima_perm _ _ Hperm), (sum_of_maxima_same_branches _ _ Hsame).
    reflexivity.
Qed.

Lemma reordered_exposed : exposes (facade_of (serving reordered [])) reordered_table.
Proof. exposed. Qed.

Lemma total_size_ignores_listing_order_witness :
  exists total,
    SonarQubeNumberOfLinesAnalysis.get_total_size
      (analysis_of (serving scenario scenario_trees)) = Ok total
    /\ SonarQubeNumberOfLinesAnalysis.get_total_size
         (analysis_of (serving reordered [])) = Ok total.
Proof.
  apply (total_size_ignores_listing_order
           (analysis_of (serving scenario scenario_trees))
           (analysis_of (serving reordered [])) scenario_table reordered_table).
  - exact scenario_exposed.
  - exact reordered_exposed.
  - repeat constructor; discriminate.
  - exists [ ("B", [("main", 50)]); ("A", [("main", 100); ("feature", 150)]) ].
    split; [apply perm_swap |].
    repeat constructor.
Defined.

(** ** All reports in one run *)

(** X16: with all three reports asked for and all of them succeeding, [main]
    writes the branch report to the report file and prints, in this order,
    the confirmation of the file, the line with the total and the top files
    report followed by an empty line. *)
Theorem main_all_reports
    (new_client : string -> option string -> SonarQubeClient) (env : environ)
    (args : Script.Namespace) (project_key branch_name : string) (top_x : Z)
    (report : string) (total : Z) (top : string) (w : world) :
  let analysis :=
    _create_analysis new_client env (Script.sonarqube_url args)
      (Script.sonarqube_admin_token args) in
  Script.branch_size args = true ->
  Script.total_size args = true ->
  Script.top_x_files args = Some (join "," [project_key; branch_name; str_of_int top_x]) ->
  free_of "," project_key = true ->
  free_of "," branch_name = true ->
  SonarQubeNumberOfLinesAnalysis.get_branch_size_report analysis = Ok report ->
  SonarQubeNumberOfLinesAnalysis.get_total_size analysis = Ok total ->
  SonarQubeNumberOfLinesAnalysis.get_top_x_files_report analysis
    project_key branch_name top_x = Ok top ->
  Script.main new_client env args w
  = ({| stdout := (stdout w
                   ++ ("Report written to file branch_size_report.csv" ++ newline)
                   ++ ("Total number of lines: " ++ str_of_int total ++ newline)
                   ++ (top ++ newline))%string;
        files := fun p =>
          if String.eqb p "branch_size_report.csv" then Some report else files w p |},
     Ok tt).
Proof.
  intros analysis Hbs Hts Hspec Hp Hb Hreport Htotal Htop.
  assert (Hsplit : split "," (join "," [project_key; branch_name; str_of_int top_x])
                   = [project_key; branch_name; str_of_int top_x]).
  { apply split_join; [discriminate |].
    repeat constructor; try assumption.
    apply free_of_occurrences, str_of_int_has_no; reflexivity. }
  assert (Htruthy : Script.truthy (Script.top_x_files args) = true).
  { rewrite Hspec. simpl. destruct project_key; reflexivity. }
  unfold Script.main. fold analysis. rewrite Htruthy, Hspec, Hbs, Hts.
  unfold Script.branch_size_analysis, print_in_file_branch_size_report,
    Script.get_total_size, Script.top_x_files_stage, Script.get_top_x,
    print_to_console_top_x_files.
  rewrite Hsplit. unfold io_bind, eval, unpack3, py_int.
  rewrite Hreport, Htotal, int_of_str_of_int, Htop.
  unfold print, write_file. cbn [stdout files fst snd]. f_equal. f_equal.
  now rewrite !append_assoc.
Qed.

Lemma main_all_reports_witness :
  Script.main anonymous_access [] (example_args true true (Some "A,main,1")) old_world
  = ({| stdout := (stdout old_world
                   ++ ("Report written to file branch_size_report.csv" ++ newline)
                   ++ ("Total number of lines: " ++ str_of_int 200 ++ newline)
                   ++ (("Project, Branch, Path, Number of lines of code" ++ newline
                        ++ "A, main, x.py, 80" ++ newline) ++ newline))%string;
        files := fun p =>
          if String.eqb p "branch_size_report.csv"
          then Some ("Project, Branch, Number of lines of code" ++ newline
                     ++ "A, feature, 150" ++ newline
                     ++ "A, main, 100" ++ newline
                     ++ "B, main, 50" ++ newline)%string
          else files old_world p |},
     Ok tt).
Proof.
  apply (main_all_reports anonymous_access []
           (example_args true true (Some "A,main,1")) "A" "main" 1); reflexivity.
Defined.
